(** * Redshift SQL lineage (v2): classification and dispatch of lineage evidence

    A shallow embedding of [RedshiftSqlLineageV2]
    (metadata-ingestion/src/datahub/ingestion/source/redshift/lineage_v2.py):
    the known-entity registry, the target resolver, the six classifiers and
    the dispatch loop of [build], followed by the properties proved of them. *)

From Stdlib Require Import Ascii.
From stdpp Require Import base option strings list gmap.

Local Open Scope string_scope.

(** ** Python values *)

(** Truthiness of an [Optional[str]]: [None] and the empty text are falsy. *)
Definition truthy (o : option string) : bool :=
  match o with
  | Some s => negb (String.eqb s "")
  | None => false
  end.

(** What an f-string puts for an [Optional[str]] field: the text itself, or
    the four letters [None]. *)
Definition fmt (o : option string) : string := default "None" o.

(** [str.lower], on the ASCII letters. *)
Definition lower_ascii (c : ascii) : ascii :=
  let n := nat_of_ascii c in
  if (65 <=? n)%nat && (n <=? 90)%nat then ascii_of_nat (n + 32) else c.

Fixpoint lower (s : string) : string :=
  match s with
  | EmptyString => EmptyString
  | String c s' => String (lower_ascii c) (lower s')
  end.

(** An insertion-ordered [dict] that the code iterates over: its items, in
    order; [d[k]] reads the item of key [k]. *)
Definition dict (K V : Type) : Type := list (K * V).

Fixpoint dict_get {V} (d : dict string V) (k : string) : option V :=
  match d with
  | [] => None
  | (k', v) :: d' => if String.eqb k' k then Some v else dict_get d' k
  end.

(** ** Exceptions

    The exceptions a run can meet, all of them subclasses of [Exception]:
    the classifier's assertion, a missing dict key, and whatever a
    collaborator raises (connection and query errors). *)

Inductive exn : Type :=
  | AssertionError (msg : string)
  | KeyError (key : string)
  | OtherError (cls msg : string).

Definition Res (A : Type) : Type := (exn + A)%type.

(** ** Dataset identifiers *)

(** Modelled from the spec: [DatasetUrn.create_from_ids(..).urn()] and
    [mce_builder.make_dataset_urn_with_platform_instance] are not in this
    file of the repository.  The spec's Dataset Identifier is "a canonical
    string key composed of platform, database, schema, table, optional
    platform-instance, and environment tag", two of them being equal iff all
    components match, and the registry is "built using the same
    identifier-construction rules used everywhere else".  The key is kept as
    the tuple of its components; [urn_name] is the dotted name the code
    formats ([database.schema.table]). *)
Record DatasetUrn : Type := mkUrn {
  urn_platform : string;
  urn_instance : option string;
  urn_name : string;
  urn_env : string
}.

#[global] Instance DatasetUrn_eq_dec : EqDecision DatasetUrn.
Proof. solve_decision. Defined.

#[global] Instance DatasetUrn_countable : Countable DatasetUrn.
Proof.
  refine (inj_countable'
    (fun u => (urn_platform u, urn_instance u, urn_name u, urn_env u))
    (fun t => match t with (p, i, n, e) => mkUrn p i n e end) _).
  intros []; reflexivity.
Defined.

Definition create_from_ids (platform_id table_name env : string)
    (platform_instance : option string) : DatasetUrn :=
  mkUrn platform_id platform_instance table_name env.

Definition make_dataset_urn_with_platform_instance (platform name : string)
    (platform_instance : option string) (env : string) : DatasetUrn :=
  mkUrn platform platform_instance name env.

(** ** Evidence rows and the catalog snapshot *)

(** Modelled from the spec: [LineageRow] is declared in redshift_schema.py,
    not in this file.  The spec's Evidence Row is "a semi-structured record
    with optional fields": DDL/SQL text, session identifier, timestamp,
    source schema/table, target schema/table, filename.  A [datetime] is
    kept as a number. *)
Record LineageRow : Type := mkRow {
  source_schema : option string;
  source_table : option string;
  target_schema : option string;
  target_table : option string;
  ddl : option string;
  filename : option string;
  timestamp : option Z;
  session_id : option string
}.

(** The fields of a temp-table row that [build] reads. *)
Record TempTableRow : Type := mkTempRow {
  query_text : string;
  tmp_session_id : string;
  start_time : Z
}.

(** The fields of a catalog table or view that the code reads:
    [table.name] and [table.type]. *)
Record RedshiftTable : Type := mkTable {
  name : string;
  type : option string
}.

(** The fields of a catalog schema that the code reads: [schema.type] and
    [schema.external_database]. *)
Record RedshiftSchema : Type := mkSchema {
  schema_type : string;
  external_database : option string
}.

(** [all_tables]: database -> schema -> tables and views, iterated in order. *)
Definition AllTables : Type := dict string (dict string (list RedshiftTable)).

(** ** Configuration *)

Inductive LineageMode : Type := SQL_BASED | STL_SCAN_BASED | MIXED.

Record RedshiftConfig : Type := mkConfig {
  env : string;
  platform_instance : option string;
  default_schema : string;
  resolve_temp_table_in_lineage : bool;
  include_table_rename_lineage : bool;
  table_lineage_mode : LineageMode;
  include_views : bool;
  include_view_lineage : bool;
  include_copy_lineage : bool;
  include_unload_lineage : bool;
  platform_instance_map : option (gmap string string)
}.

Inductive LineageCollectorType : Type :=
  | QUERY_SCAN
  | QUERY_SQL_PARSER
  | VIEW
  | VIEW_DDL_SQL_PARSING
  | COPY
  | UNLOAD.

#[global] Instance LineageCollectorType_eq_dec : EqDecision LineageCollectorType.
Proof. solve_decision. Defined.

(** [lineage_type.name] *)
Definition collector_name (t : LineageCollectorType) : string :=
  match t with
  | QUERY_SCAN => "QUERY_SCAN"
  | QUERY_SQL_PARSER => "QUERY_SQL_PARSER"
  | VIEW => "VIEW"
  | VIEW_DDL_SQL_PARSING => "VIEW_DDL_SQL_PARSING"
  | COPY => "COPY"
  | UNLOAD => "UNLOAD"
  end.

(** Modelled from the spec: the query builders of [RedshiftQuery] are not in
    this file.  A query is kept as the call that builds it; the connection
    answers a query with a lazy sequence of rows. *)
Inductive RedshiftQuery : Type :=
  | list_insert_create_queries_sql (db_name : string) (start_t end_t : Z)
  | stl_scan_based_lineage_query (db_name : string) (start_t end_t : Z)
  | view_lineage_query
  | list_late_view_ddls_query
  | list_copy_commands_sql (db_name : string) (start_t end_t : Z)
  | list_unload_commands_sql (db_name : string) (start_t end_t : Z).

#[global] Instance RedshiftQuery_eq_dec : EqDecision RedshiftQuery.
Proof. solve_decision. Defined.

(** A lazy row sequence (a generator): the rows it yields, then either the
    normal end or the exception raised when the next row is asked for.  A
    query that fails to execute yields no row and faults at once. *)
Record Rows (A : Type) : Type := mkRows {
  yielded : list A;
  fault : option exn
}.
Arguments mkRows {A} _ _.
Arguments yielded {A} _.
Arguments fault {A} _.

(** The catalog connection, by what [RedshiftDataDictionary.get_lineage_rows]
    streams back for each query. *)
Definition Connection : Type := RedshiftQuery -> Rows LineageRow.

Definition get_lineage_rows (conn : Connection) (query : RedshiftQuery)
    : Rows LineageRow := conn query.

(** ** The legacy extractor, as the methods consumed *)

Record LineageDataset : Type := mkDataset {
  ds_platform : string;
  ds_urn : DatasetUrn
}.

Record LineageItem : Type := mkItem {
  dataset : LineageDataset
}.

(** [self._lineage_v1]: a collaborator outside this file, taken by its
    interface.  Each method may raise.  The arguments that [build] and the
    classifiers always pass the same way are left out: the fresh
    [all_tables] of [_process_table_renames] and the empty [all_tables_set]
    of [_get_target_lineage]. *)
Record RedshiftLineageExtractor : Type := mkExtractor {
  get_temp_tables : Connection -> Rows TempTableRow;
  _process_table_renames :
    string -> Connection -> Res (dict DatasetUrn DatasetUrn);
  _get_sources :
    LineageCollectorType -> string -> option string -> option string ->
    option string -> option string ->
    Res (list LineageDataset * option (list TempTableRow));
  _get_target_lineage :
    string -> LineageRow -> LineageCollectorType -> Res (option LineageItem)
}.

(** ** Lineage facts: the calls received by the aggregator *)

Record KnownQueryLineageInfo : Type := mkInfo {
  info_query_text : string;
  downstream : DatasetUrn;
  upstreams : list DatasetUrn;
  info_timestamp : option Z
}.

Inductive Fact : Type :=
  | add_observed_query (query default_db default_sch : string)
      (sess : option string) (query_timestamp : option Z)
      (is_known_temp_table : bool)
  | add_known_query_lineage (info : KnownQueryLineageInfo) (merge_lineage : bool)
  | add_view_definition (view_urn : DatasetUrn)
      (view_definition default_db default_sch : string)
  | add_known_lineage_mapping (upstream_urn downstream_urn : DatasetUrn)
  | add_table_rename (original_urn new_urn : DatasetUrn).

(** The text [f"Error was {e}, {traceback.format_exc()}"], by the exception
    it describes. *)
Inductive Diagnostic : Type := Error_was (e : exn).

Inductive Event : Type :=
  | Emit (f : Fact)
  | report_warning (key : string) (message : Diagnostic)
  | report_status (key : string) (ok : bool).

(** ** The effect monad

    A computation appends to the run's log (calls on the aggregator and on
    the report) and returns or raises.  What was logged before an exception
    stays logged. *)
Record M (A : Type) : Type := mkM {
  log : list Event;
  result : Res A
}.
Arguments mkM {A} _ _.
Arguments log {A} _.
Arguments result {A} _.

#[global] Instance M_ret : MRet M := fun A a => mkM [] (inr a).

#[global] Instance M_bind : MBind M := fun A B f m =>
  match result m with
  | inl e => mkM (log m) (inl e)
  | inr a => mkM (log m ++ log (f a)) (result (f a))
  end.

Definition raise {A} (e : exn) : M A := mkM [] (inl e).

Definition emit (f : Fact) : M unit := mkM [Emit f] (inr tt).

Definition tell (ev : Event) : M unit := mkM [ev] (inr tt).

(** A collaborator's answer, returned or re-raised. *)
Definition lift {A} (r : Res A) : M A := mkM [] r.

(** [try: m except Exception as e: handler e] *)
Definition try_except {A} (m : M A) (handler : exn -> M A) : M A :=
  match result m with
  | inl e => mkM (log m ++ log (handler e)) (result (handler e))
  | inr a => m
  end.

(** [for x in xs: body x] over a list. *)
Fixpoint for_each {A} (xs : list A) (body : A -> M unit) : M unit :=
  match xs with
  | [] => mret tt
  | x :: xs' => body x ;; for_each xs' body
  end.

(** [for x in rows: body x] over a lazy sequence: the rows yielded are
    processed one at a time, then the sequence ends or faults. *)
Definition for_rows {A} (rows : Rows A) (body : A -> M unit) : M unit :=
  for_each (yielded rows) body ;;
  match fault rows with
  | Some e => raise e
  | None => mret tt
  end.

(** [d[k]] on a dict and on a map: the value, or [KeyError]. *)
Definition getitem {V} (d : dict string V) (k : string) : M V :=
  match dict_get d k with
  | Some v => mret v
  | None => raise (KeyError k)
  end.

Definition map_getitem {V} (d : gmap string V) (k : string) : M V :=
  match d !! k with
  | Some v => mret v
  | None => raise (KeyError k)
  end.

(** [assert o, msg] on an [Optional[str]]: the text when it is truthy,
    [AssertionError] when it is [None] or empty. *)
Definition assert_text (o : option string) (msg : string) : M string :=
  match o with
  | Some s => if truthy o then mret s else raise (AssertionError msg)
  | None => raise (AssertionError msg)
  end.

(** The facts in a log, in order. *)
Definition facts (l : list Event) : list Fact :=
  omap (fun ev => match ev with Emit f => Some f | _ => None end) l.

(** ** The extractor object *)

Record RedshiftSqlLineageV2 : Type := mkSelf {
  config : RedshiftConfig;
  database : string;
  _lineage_v1 : RedshiftLineageExtractor;
  self_start_time : Z;
  self_end_time : Z;
  known_urns : gset DatasetUrn
}.

(** [self.platform] *)
Definition platform : string := "redshift".

(** [self.known_urns = ...] *)
Definition set_known_urns (self : RedshiftSqlLineageV2) (s : gset DatasetUrn)
    : RedshiftSqlLineageV2 :=
  mkSelf (config self) (database self) (_lineage_v1 self)
    (self_start_time self) (self_end_time self) s.

(** The identifier the classifiers build for a table of the run's database:
    [DatasetUrn.create_from_ids(self.platform,
       f"{self.database}.{schema}.{table}", env=self.config.env,
       platform_instance=self.config.platform_instance)]. *)
Definition dataset_urn (self : RedshiftSqlLineageV2) (schema table : option string)
    : DatasetUrn :=
  create_from_ids platform
    (database self +:+ "." +:+ fmt schema +:+ "." +:+ fmt table)
    (env (config self)) (platform_instance (config self)).

(** The registry [build] assigns to [self.known_urns]: one identifier per
    (database, schema, table) of the snapshot. *)
Definition registry (self : RedshiftSqlLineageV2) (all_tables : AllTables)
    : gset DatasetUrn :=
  list_to_set (
    '(db, schemas) ← all_tables;
    '(schema, tables) ← schemas;
    table ← tables;
    [create_from_ids platform
       (db +:+ "." +:+ schema +:+ "." +:+ name table)
       (env (config self)) (platform_instance (config self))]).

(** ** The classifiers *)

Definition _process_sql_parser_lineage (self : RedshiftSqlLineageV2)
    (lineage_row : LineageRow) : M unit :=
  match ddl lineage_row with
  | None => mret tt
  | Some ddl =>
      emit (add_observed_query ddl (database self)
              (default_schema (config self))
              (session_id lineage_row) (timestamp lineage_row) false)
  end.

Definition _make_filtered_target (self : RedshiftSqlLineageV2)
    (lineage_row : LineageRow) : option DatasetUrn :=
  let target :=
    dataset_urn self (target_schema lineage_row) (target_table lineage_row) in
  if decide (target ∉ known_urns self) then None else Some target.

Definition _process_stl_scan_lineage (self : RedshiftSqlLineageV2)
    (lineage_row : LineageRow) : M unit :=
  match _make_filtered_target self lineage_row with
  | None => mret tt
  | Some target =>
      let source :=
        dataset_urn self (source_schema lineage_row) (source_table lineage_row) in
      query_text ← assert_text (ddl lineage_row)
                     "stl scan entry is missing query text";
      emit (add_known_query_lineage
              (mkInfo query_text target [source] (timestamp lineage_row))
              true)
  end.

Definition _process_view_lineage (self : RedshiftSqlLineageV2)
    (lineage_row : LineageRow) : M unit :=
  match ddl lineage_row with
  | None => mret tt
  | Some ddl =>
      match _make_filtered_target self lineage_row with
      | None => mret tt
      | Some target =>
          emit (add_view_definition target ddl (database self)
                  (default_schema (config self)))
      end
  end.

Definition _process_copy_command (self : RedshiftSqlLineageV2)
    (lineage_row : LineageRow) : M unit :=
  got ← lift (_get_sources (_lineage_v1 self) COPY (database self)
                None None None (filename lineage_row));
  match got.1 with
  | [] => mret tt
  | source0 :: _ =>
      let s3_urn := ds_urn source0 in
      if negb (truthy (target_schema lineage_row))
         || negb (truthy (target_table lineage_row))
      then mret tt
      else
        match _make_filtered_target self lineage_row with
        | None => mret tt
        | Some target => emit (add_known_lineage_mapping s3_urn target)
        end
  end.

Definition _process_unload_command (self : RedshiftSqlLineageV2)
    (lineage_row : LineageRow) : M unit :=
  lineage_entry ← lift (_get_target_lineage (_lineage_v1 self) (database self)
                          lineage_row UNLOAD);
  match lineage_entry with
  | None => mret tt
  | Some lineage_entry =>
      let output_urn := ds_urn (dataset lineage_entry) in
      if negb (truthy (source_schema lineage_row))
         || negb (truthy (source_table lineage_row))
      then mret tt
      else
        let source :=
          dataset_urn self (source_schema lineage_row)
            (source_table lineage_row) in
        if decide (source ∉ known_urns self) then mret tt
        else emit (add_known_lineage_mapping source output_urn)
  end.

(** [self.config.platform_instance_map.get(upstream_platform)
     if self.config.platform_instance_map else None] *)
Definition upstream_instance (self : RedshiftSqlLineageV2)
    (upstream_platform : string) : option string :=
  match platform_instance_map (config self) with
  | Some m => if decide (m = ∅) then None else m !! upstream_platform
  | None => None
  end.

Definition external_table_edge (self : RedshiftSqlLineageV2)
    (schema_name : string) (schema : RedshiftSchema) (table : RedshiftTable)
    : Fact :=
  let upstream_platform := lower (schema_type schema) in
  let table_urn :=
    make_dataset_urn_with_platform_instance platform
      (database self +:+ "." +:+ schema_name +:+ "." +:+ name table)
      (platform_instance (config self)) (env (config self)) in
  let upstream_urn :=
    make_dataset_urn_with_platform_instance upstream_platform
      (fmt (external_database schema) +:+ "." +:+ name table)
      (upstream_instance self upstream_platform) (env (config self)) in
  add_known_lineage_mapping upstream_urn table_urn.

Definition is_external (table : RedshiftTable) : bool :=
  bool_decide (type table = Some "EXTERNAL_TABLE").

Definition _process_external_tables (self : RedshiftSqlLineageV2)
    (all_tables : AllTables)
    (db_schemas : gmap string (gmap string RedshiftSchema)) : M unit :=
  schemas ← getitem all_tables (database self);
  for_each schemas (fun '(schema_name, tables) =>
    for_each tables (fun table =>
      if is_external table then
        by_schema ← map_getitem db_schemas (database self);
        schema ← map_getitem by_schema schema_name;
        emit (external_table_edge self schema_name schema table)
      else mret tt)).

(** ** The dispatch loop *)

Definition _populate_lineage_agg (self : RedshiftSqlLineageV2)
    (query : RedshiftQuery) (lineage_type : LineageCollectorType)
    (processor : LineageRow -> M unit) (connection : Connection) : M unit :=
  try_except
    (for_rows (get_lineage_rows connection query) processor)
    (fun e =>
       tell (report_warning ("extract-" +:+ collector_name lineage_type)
               (Error_was e)) ;;
       tell (report_status ("extract-" +:+ collector_name lineage_type) false)).

Definition PopulateCall : Type :=
  (LineageCollectorType * RedshiftQuery * (LineageRow -> M unit))%type.

(** The list [populate_calls] that [build] fills from the configuration. *)
Definition populate_calls (self : RedshiftSqlLineageV2) : list PopulateCall :=
  let db := database self in
  let t0 := self_start_time self in
  let t1 := self_end_time self in
  (match table_lineage_mode (config self) with
   | SQL_BASED | MIXED =>
       [(QUERY_SQL_PARSER, list_insert_create_queries_sql db t0 t1,
         _process_sql_parser_lineage self)]
   | STL_SCAN_BASED => []
   end) ++
  (match table_lineage_mode (config self) with
   | STL_SCAN_BASED | MIXED =>
       [(QUERY_SCAN, stl_scan_based_lineage_query db t0 t1,
         _process_stl_scan_lineage self)]
   | SQL_BASED => []
   end) ++
  (if include_views (config self) && include_view_lineage (config self) then
     [(VIEW, view_lineage_query, _process_view_lineage self);
      (VIEW_DDL_SQL_PARSING, list_late_view_ddls_query,
       _process_view_lineage self)]
   else []) ++
  (if include_copy_lineage (config self) then
     [(COPY, list_copy_commands_sql db t0 t1, _process_copy_command self)]
   else []) ++
  (if include_unload_lineage (config self) then
     [(UNLOAD, list_unload_commands_sql db t0 t1, _process_unload_command self)]
   else []).

Definition run_call (self : RedshiftSqlLineageV2) (connection : Connection)
    (call : PopulateCall) : M unit :=
  let '(lineage_type, query, processor) := call in
  _populate_lineage_agg self query lineage_type processor connection.

(** The temp tables handled up front. *)
Definition temp_tables_step (self : RedshiftSqlLineageV2)
    (connection : Connection) : M unit :=
  if resolve_temp_table_in_lineage (config self) then
    for_rows (get_temp_tables (_lineage_v1 self) connection) (fun temp_row =>
      emit (add_observed_query (query_text temp_row) (database self)
              (default_schema (config self))
              (Some (tmp_session_id temp_row)) (Some (start_time temp_row))
              true))
  else mret tt.

(** The ALTER TABLE RENAME statements. *)
Definition table_renames_step (self : RedshiftSqlLineageV2)
    (connection : Connection) : M unit :=
  if include_table_rename_lineage (config self) then
    table_renames ← lift (_process_table_renames (_lineage_v1 self)
                            (database self) connection);
    for_each table_renames (fun '(new_urn, original_urn) =>
      emit (add_table_rename original_urn new_urn))
  else mret tt.

Definition build (self0 : RedshiftSqlLineageV2) (connection : Connection)
    (all_tables : AllTables)
    (db_schemas : gmap string (gmap string RedshiftSchema)) : M unit :=
  let self := set_known_urns self0 (registry self0 all_tables) in
  temp_tables_step self connection ;;
  table_renames_step self connection ;;
  for_each (populate_calls self) (run_call self connection) ;;
  _process_external_tables self all_tables db_schemas.

(** ** Fault injection, for stating failure isolation *)

(** The connection that answers [qf] with [rows'] (a failing execution, or
    rows on which the classifier faults) and every other query as [conn]. *)
Definition inject_fault (conn : Connection) (qf : RedshiftQuery)
    (rows' : Rows LineageRow) : Connection :=
  fun q => if decide (q = qf) then rows' else conn q.

(** ** Reading facts *)

(** The downstream of a Known Edge fact. *)
Definition known_edge_downstream (f : Fact) : option DatasetUrn :=
  match f with
  | add_known_query_lineage info _ => Some (downstream info)
  | add_known_lineage_mapping _ d => Some d
  | _ => None
  end.

Definition downstream_known (s : gset DatasetUrn) (ev : Event) : Prop :=
  match ev with
  | Emit f =>
      match known_edge_downstream f with
      | Some d => d ∈ s
      | None => True
      end
  | _ => True
  end.

(** An identifier of the run's own platform whose dotted name starts with
    the run's database. *)
Definition qualified (self : RedshiftSqlLineageV2) (u : DatasetUrn) : bool :=
  String.eqb (urn_platform u) platform
  && String.prefix (database self +:+ ".") (urn_name u).

(** The identifiers that a row-streamed classifier builds itself, in a fact
    it emitted: both ends of a scan edge, the view of a view definition, the
    target of a copy edge, the source of an unload edge. *)
Definition built_urns (kind : LineageCollectorType) (f : Fact)
    : list DatasetUrn :=
  match kind, f with
  | QUERY_SCAN, add_known_query_lineage info _ => downstream info :: upstreams info
  | (VIEW | VIEW_DDL_SQL_PARSING), add_view_definition u _ _ _ => [u]
  | COPY, add_known_lineage_mapping _ d => [d]
  | UNLOAD, add_known_lineage_mapping u _ => [u]
  | _, _ => []
  end.

(** The database a fact names as its default. *)
Definition default_db_of (f : Fact) : option string :=
  match f with
  | add_observed_query _ db _ _ _ _ => Some db
  | add_view_definition _ _ db _ => Some db
  | _ => None
  end.


(** The external tables of a database's snapshot, each with the name of its
    schema, in the order the snapshot lists them. *)
Definition external_tables_of (schemas : dict string (list RedshiftTable))
    : list (string * RedshiftTable) :=
  '(schema_name, tables) ← schemas;
  pair schema_name <$> List.filter is_external tables.

(** [t] is [s] in lower case: the two have the same length, each ASCII
    capital of [s] (codes 65 to 90) is replaced in [t] by its small letter
    (code plus 32), and every other character is unchanged. *)
Fixpoint lowercased (s t : string) : Prop :=
  match s, t with
  | EmptyString, EmptyString => True
  | String c s', String c' t' =>
      (if bool_decide (65 <= nat_of_ascii c <= 90)
       then nat_of_ascii c' = nat_of_ascii c + 32
       else c' = c) /\
      lowercased s' t'
  | _, _ => False
  end.

(** [f] is the edge of the external table [st.2] of schema [st.1]: its
    downstream is the table's own identifier, its upstream is on the
    platform named by the schema's storage type in lower case, with the
    instance that [platform_instance_map] gives that platform, in the
    schema's external database. *)
Definition external_edge_of (self : RedshiftSqlLineageV2)
    (by_schema : gmap string RedshiftSchema)
    (st : string * RedshiftTable) (f : Fact) : Prop :=
  exists schema upstream_platform,
    by_schema !! st.1 = Some schema /\
    lowercased (schema_type schema) upstream_platform /\
    f = add_known_lineage_mapping
          (mkUrn upstream_platform
             (upstream_instance self upstream_platform)
             (fmt (external_database schema) +:+ "." +:+ name st.2)
             (env (config self)))
          (create_from_ids platform
             (database self +:+ "." +:+ st.1 +:+ "." +:+ name st.2)
             (env (config self)) (platform_instance (config self))).

(** The one aggregator call that the classifier of each kind makes. *)
Definition fact_of_kind (kind : LineageCollectorType) (f : Fact) : bool :=
  match kind, f with
  | QUERY_SQL_PARSER, add_observed_query _ _ _ _ _ _ => true
  | QUERY_SCAN, add_known_query_lineage _ _ => true
  | (VIEW | VIEW_DDL_SQL_PARSING), add_view_definition _ _ _ _ => true
  | (COPY | UNLOAD), add_known_lineage_mapping _ _ => true
  | _, _ => false
  end.

(** [f] is a fact of the classifier of [kind], every identifier that the
    classifier built in it is in the run's database, and so is the default
    database that [f] names. *)
Definition in_run_database (self : RedshiftSqlLineageV2)
    (kind : LineageCollectorType) (f : Fact) : Prop :=
  fact_of_kind kind f = true /\
  forallb (qualified self) (built_urns kind f) = true /\
  (forall db, default_db_of f = Some db -> db = database self).

(** The classifier that [build] pairs with each evidence kind. *)
Definition classifier (kind : LineageCollectorType)
    (self : RedshiftSqlLineageV2) : LineageRow -> M unit :=
  match kind with
  | QUERY_SQL_PARSER => _process_sql_parser_lineage self
  | QUERY_SCAN => _process_stl_scan_lineage self
  | VIEW | VIEW_DDL_SQL_PARSING => _process_view_lineage self
  | COPY => _process_copy_command self
  | UNLOAD => _process_unload_command self
  end.

(** The row lacks a field that the classifier of [kind] requires: the DDL
    text ([is None] for the observed-query and view classifiers, falsy for
    the scan assertion), the copy target or the copy filename (with a
    resolver that yields no source without one), the unload source. *)
Definition lacks_required_field (kind : LineageCollectorType)
    (self : RedshiftSqlLineageV2) (row : LineageRow) : Prop :=
  match kind with
  | QUERY_SQL_PARSER | VIEW | VIEW_DDL_SQL_PARSING => ddl row = None
  | QUERY_SCAN => truthy (ddl row) = false
  | COPY =>
      truthy (target_schema row) = false \/ truthy (target_table row) = false \/
      (filename row = None /\
       exists rest, _get_sources (_lineage_v1 self) COPY (database self)
                      None None None None = inr ([], rest))
  | UNLOAD =>
      truthy (source_schema row) = false \/ truthy (source_table row) = false
  end.

(** How the classifier of [kind] ends on such a row. *)
Definition outcome_without_field (kind : LineageCollectorType)
    (self : RedshiftSqlLineageV2) (row : LineageRow) : Res unit :=
  match kind with
  | QUERY_SCAN =>
      match _make_filtered_target self row with
      | Some _ => inl (AssertionError "stl scan entry is missing query text")
      | None => inr tt
      end
  | COPY =>
      match _get_sources (_lineage_v1 self) COPY (database self)
              None None None (filename row) with
      | inl e => inl e
      | inr _ => inr tt
      end
  | UNLOAD =>
      match _get_target_lineage (_lineage_v1 self) (database self) row UNLOAD with
      | inl e => inl e
      | inr _ => inr tt
      end
  | _ => inr tt
  end.

(** ** Scenario data

    The catalog, configuration and rows of the scenarios, used to run the
    definitions above on concrete inputs. *)

Definition scenario_config : RedshiftConfig :=
  mkConfig "PROD" None "public" false false MIXED true true true true None.

Definition s3_urn_of (path : string) : DatasetUrn :=
  make_dataset_urn_with_platform_instance "s3" path None "PROD".

(** A legacy extractor that resolves a copy source or an unload output
    from the row's filename, and nothing without one. *)
Definition scenario_legacy : RedshiftLineageExtractor :=
  mkExtractor
    (fun _ => mkRows [] None)
    (fun _ _ => inr [])
    (fun _ _ _ _ _ filename =>
       match filename with
       | Some f => inr ([mkDataset "s3" (s3_urn_of f)], None)
       | None => inr ([], None)
       end)
    (fun _ lineage_row _ =>
       match filename lineage_row with
       | Some f => inr (Some (mkItem (mkDataset "s3" (s3_urn_of f))))
       | None => inr None
       end).

Definition scenario_tables : AllTables :=
  [("db", [("public", [mkTable "orders" (Some "TABLE");
                       mkTable "customers" (Some "TABLE")]);
           ("ext_schema", [mkTable "ext_tbl" (Some "EXTERNAL_TABLE")])])].

Definition scenario_schemas : gmap string (gmap string RedshiftSchema) :=
  {[ "db" := {[ "public" := mkSchema "local" None;
                "ext_schema" := mkSchema "GLUE" (Some "raw") ]} ]}.

Definition fresh_self : RedshiftSqlLineageV2 :=
  mkSelf scenario_config "db" scenario_legacy 0 100 ∅.

(** The object as the classifiers see it during [build]. *)
Definition scenario_self : RedshiftSqlLineageV2 :=
  set_known_urns fresh_self (registry fresh_self scenario_tables).

Definition scan_row : LineageRow :=
  mkRow (Some "public") (Some "customers") (Some "public") (Some "orders")
    (Some "INSERT INTO orders SELECT * FROM customers") None (Some 17%Z) None.

(** A scan row with a known target and no query text. *)
Definition scan_row_no_ddl : LineageRow :=
  mkRow (Some "public") (Some "customers") (Some "public") (Some "orders")
    None None (Some 17%Z) None.

(** A scan row read from a table that the catalog does not list. *)
Definition scan_row_temp_source : LineageRow :=
  mkRow (Some "public") (Some "scratch_tmp") (Some "public") (Some "orders")
    (Some "INSERT INTO orders SELECT * FROM scratch_tmp") None (Some 18%Z) None.

Definition copy_row : LineageRow :=
  mkRow None None (Some "public") (Some "orders")
    None (Some "s3://bucket/file.csv") None None.

(** A copy row that names no target table. *)
Definition copy_row_no_target : LineageRow :=
  mkRow None None (Some "public") None
    None (Some "s3://bucket/file.csv") None None.


(** An observed row whose query text is the empty text. *)
Definition empty_ddl_row : LineageRow :=
  mkRow None None None None (Some "") None (Some 19%Z) (Some "session-1").

(** A catalog with a schema whose name is the word None, and a row with no
    target schema. *)
Definition none_schema_tables : AllTables :=
  [("db", [("None", [mkTable "orders" (Some "TABLE")])])].

Definition none_schema_self : RedshiftSqlLineageV2 :=
  set_known_urns fresh_self (registry fresh_self none_schema_tables).

Definition null_target_row : LineageRow :=
  mkRow (Some "public") (Some "customers") None (Some "orders")
    (Some "INSERT INTO orders SELECT * FROM customers") None None None.

(** A snapshot with two external schemas, and a snapshot of the schemas
    that holds the second of them only. *)
Definition two_external_tables : AllTables :=
  [("db", [("ext_a", [mkTable "t_a" (Some "EXTERNAL_TABLE")]);
           ("ext_b", [mkTable "t_b" (Some "EXTERNAL_TABLE")])])].

Definition only_ext_b_schemas : gmap string (gmap string RedshiftSchema) :=
  {[ "db" := {[ "ext_b" := mkSchema "GLUE" (Some "raw") ]} ]}.

(** A snapshot of the catalog's schemas that misses the external schema. *)
Definition partial_schemas : gmap string (gmap string RedshiftSchema) :=
  {[ "db" := {[ "public" := mkSchema "local" None ]} ]}.

(** A connection that answers every query with the scan row and no fault. *)
Definition quiet_connection : Connection := fun _ => mkRows [scan_row] None.

Definition scan_query : RedshiftQuery := stl_scan_based_lineage_query "db" 0 100.

Definition query_error : exn := OtherError "QueryError" "relation stl_scan is unavailable".

(** ** The object before [build], and further readings of a run *)

(** [__init__]: the object as constructed.  [legacy] is the extractor it
    creates and [time_window] what [legacy.get_time_window()] returns; the
    registry starts empty ("will be set later"). *)
Definition __init__ (config : RedshiftConfig) (database : string)
    (legacy : RedshiftLineageExtractor) (time_window : Z * Z)
    : RedshiftSqlLineageV2 :=
  mkSelf config database legacy time_window.1 time_window.2 ∅.

(** What must hold of a row for a copy edge from [s3]: the storage
    resolver yields at least one source, the first being [s3]; the target
    schema and table are non-empty; the target identifier is in the
    registry. *)
Definition copy_ready (self : RedshiftSqlLineageV2) (row : LineageRow)
    (s3 : DatasetUrn) : Prop :=
  (exists source0 sources temp,
     _get_sources (_lineage_v1 self) COPY (database self) None None None
       (filename row) = inr (source0 :: sources, temp) /\
     s3 = ds_urn source0) /\
  truthy (target_schema row) = true /\
  truthy (target_table row) = true /\
  dataset_urn self (target_schema row) (target_table row) ∈ known_urns self.

(** The evidence kinds in the order [build] considers them. *)
Definition all_kinds : list LineageCollectorType :=
  [QUERY_SQL_PARSER; QUERY_SCAN; VIEW; VIEW_DDL_SQL_PARSING; COPY; UNLOAD].

(** The configuration switch of each kind. *)
Definition enabled (cfg : RedshiftConfig) (kind : LineageCollectorType) : bool :=
  match kind with
  | QUERY_SQL_PARSER =>
      match table_lineage_mode cfg with
      | SQL_BASED | MIXED => true
      | STL_SCAN_BASED => false
      end
  | QUERY_SCAN =>
      match table_lineage_mode cfg with
      | STL_SCAN_BASED | MIXED => true
      | SQL_BASED => false
      end
  | VIEW | VIEW_DDL_SQL_PARSING => include_views cfg && include_view_lineage cfg
  | COPY => include_copy_lineage cfg
  | UNLOAD => include_unload_lineage cfg
  end.

(** The query of each kind, for the run's database and time window. *)
Definition query_of (self : RedshiftSqlLineageV2) (kind : LineageCollectorType)
    : RedshiftQuery :=
  let db := database self in
  let t0 := self_start_time self in
  let t1 := self_end_time self in
  match kind with
  | QUERY_SQL_PARSER => list_insert_create_queries_sql db t0 t1
  | QUERY_SCAN => stl_scan_based_lineage_query db t0 t1
  | VIEW => view_lineage_query
  | VIEW_DDL_SQL_PARSING => list_late_view_ddls_query
  | COPY => list_copy_commands_sql db t0 t1
  | UNLOAD => list_unload_commands_sql db t0 t1
  end.

(** The switch behind each fact of a run: a known-temp observed query
    needs temp-table resolution, a plain one the SQL parser kind, a query
    edge (always merged) the scan kind, a view definition the view kinds, a
    rename the rename tracking. *)
Definition gated (cfg : RedshiftConfig) (ev : Event) : Prop :=
  match ev with
  | Emit (add_observed_query _ _ _ _ _ true) =>
      resolve_temp_table_in_lineage cfg = true
  | Emit (add_observed_query _ _ _ _ _ false) =>
      enabled cfg QUERY_SQL_PARSER = true
  | Emit (add_known_query_lineage _ merge_lineage) =>
      enabled cfg QUERY_SCAN = true /\ merge_lineage = true
  | Emit (add_view_definition _ _ _ _) => enabled cfg VIEW = true
  | Emit (add_table_rename _ _) => include_table_rename_lineage cfg = true
  | _ => True
  end.

(** The default database and schema that a fact names are the run's. *)
Definition names_run_defaults (self : RedshiftSqlLineageV2) (ev : Event) : Prop :=
  match ev with
  | Emit (add_observed_query _ db sch _ _ _)
  | Emit (add_view_definition _ _ db sch) =>
      db = database self /\ sch = default_schema (config self)
  | _ => True
  end.

(** A fact with an end in the registry: the downstream of a query edge,
    the view of a view definition, the downstream of a lineage mapping
    (copy, external table) or, with unload lineage enabled, its upstream
    (unload). *)
Definition anchored_in (cfg : RedshiftConfig) (s : gset DatasetUrn)
    (ev : Event) : Prop :=
  match ev with
  | Emit (add_known_query_lineage info _) => downstream info ∈ s
  | Emit (add_view_definition u _ _ _) => u ∈ s
  | Emit (add_known_lineage_mapping u d) =>
      d ∈ s \/ (include_unload_lineage cfg = true /\ u ∈ s)
  | _ => True
  end.

(** The fields of a row that the classifier of each kind reads itself.  The
    unload classifier hands the whole row to its collaborator. *)
Definition fields_agree (kind : LineageCollectorType) (r r' : LineageRow)
    : Prop :=
  match kind with
  | QUERY_SQL_PARSER =>
      ddl r = ddl r' /\ session_id r = session_id r' /\
      timestamp r = timestamp r'
  | QUERY_SCAN =>
      target_schema r = target_schema r' /\ target_table r = target_table r' /\
      source_schema r = source_schema r' /\ source_table r = source_table r' /\
      ddl r = ddl r' /\ timestamp r = timestamp r'
  | VIEW | VIEW_DDL_SQL_PARSING =>
      target_schema r = target_schema r' /\ target_table r = target_table r' /\
      ddl r = ddl r'
  | COPY =>
      target_schema r = target_schema r' /\ target_table r = target_table r' /\
      filename r = filename r'
  | UNLOAD => r = r'
  end.

(** ** Further scenario data *)

(** A run that parses SQL only: no scan, view, copy or unload lineage. *)
Definition sql_only_config : RedshiftConfig :=
  mkConfig "PROD" None "public" false false SQL_BASED false false false false
    None.

Definition sql_only_self : RedshiftSqlLineageV2 :=
  set_known_urns (mkSelf sql_only_config "db" scenario_legacy 0 100 ∅)
    (registry fresh_self scenario_tables).

(** A scan stream whose second row has no query text. *)
Definition broken_scan_connection : Connection :=
  fun _ => mkRows [scan_row; scan_row_no_ddl; scan_row_temp_source] None.

(** A stream that yields one row and then loses the connection. *)
Definition dropped_connection : Connection :=
  fun _ => mkRows [scan_row] (Some query_error).

(** A legacy extractor whose temp-table source yields one row and then
    fails, in a run that resolves temp tables. *)
Definition failing_temp_legacy : RedshiftLineageExtractor :=
  mkExtractor
    (fun _ => mkRows [mkTempRow "CREATE TEMP TABLE t AS SELECT 1" "session-9" 5]
                (Some query_error))
    (fun _ _ => inr [])
    (fun _ _ _ _ _ _ => inr ([], None))
    (fun _ _ _ => inr None).

Definition temp_self : RedshiftSqlLineageV2 :=
  mkSelf
    (mkConfig "PROD" None "public" true true MIXED true true true true None)
    "db" failing_temp_legacy 0 100 ∅.

(** A snapshot without external tables. *)
Definition local_tables : AllTables :=
  [("db", [("public", [mkTable "orders" (Some "TABLE");
                       mkTable "customers" (Some "VIEW")])])].

(** * Properties *)

(** ** The effect monad *)

Lemma bind_unfold {A B} (m : M A) (f : A -> M B) :
  m ≫= f =
  match result m with
  | inl e => mkM (log m) (inl e)
  | inr a => mkM (log m ++ log (f a)) (result (f a))
  end.
Proof. reflexivity. Qed.

Lemma M_eta {A} (m : M A) : mkM (log m) (result m) = m.
Proof. by destruct m. Qed.

Lemma ret_bind {A B} (a : A) (f : A -> M B) : mret a ≫= f = f a.
Proof. rewrite bind_unfold. simpl. apply M_eta. Qed.

Lemma raise_bind {A B} (e : exn) (f : A -> M B) : raise e ≫= f = raise e.
Proof. reflexivity. Qed.

Lemma log_bind_Forall {A B} (P : Event -> Prop) (m : M A) (f : A -> M B) :
  Forall P (log m) -> (forall a, Forall P (log (f a))) ->
  Forall P (log (m ≫= f)).
Proof.
  intros Hm Hf. rewrite bind_unfold.
  destruct (result m) as [e|a]; simpl; [done|].
  apply Forall_app; split; [done|apply Hf].
Qed.

Lemma for_each_Forall {A} (P : Event -> Prop) (xs : list A) (body : A -> M unit) :
  (forall x, x ∈ xs -> Forall P (log (body x))) ->
  Forall P (log (for_each xs body)).
Proof.
  induction xs as [|x xs IH]; intros H; simpl; [constructor|].
  apply log_bind_Forall.
  - apply H. left.
  - intros _. apply IH. intros y Hy. apply H. by right.
Qed.

(** A loop whose body always returns runs every iteration. *)
Lemma for_each_total {A} (xs : list A) (body : A -> M unit) :
  (forall x, x ∈ xs -> result (body x) = inr tt) ->
  for_each xs body = mkM (concat (log ∘ body <$> xs)) (inr tt).
Proof.
  induction xs as [|x xs IH]; intros H; simpl; [done|].
  rewrite bind_unfold, (H x) by left.
  rewrite IH by (intros y Hy; apply H; by right). done.
Qed.

Lemma dict_get_elem_of {V} (d : dict string V) k v :
  dict_get d k = Some v -> (k, v) ∈ d.
Proof.
  induction d as [|[k' v'] d IH]; simpl; [done|].
  destruct (String.eqb k' k) eqn:E.
  - apply String.eqb_eq in E as ->. intros [= ->]. left.
  - intros H. right. by apply IH.
Qed.

Lemma prefix_app (a b : string) : String.prefix a (a +:+ b) = true.
Proof.
  induction a as [|c a IH]; simpl; [by destruct b|].
  destruct (Ascii.ascii_dec c c); [done|congruence].
Qed.

Lemma truthy_Some (o : option string) :
  truthy o = true <-> exists s, o = Some s /\ s <> "".
Proof.
  destruct o as [s|]; simpl; split.
  - intros H. exists s. split; [done|]. intros ->. done.
  - intros (s' & [= <-] & Hne). destruct (String.eqb_spec s ""); done.
  - done.
  - intros (? & ? & ?). done.
Qed.

(** ** The target resolver *)

Lemma make_filtered_target_Some self row t :
  _make_filtered_target self row = Some t ->
  t = dataset_urn self (target_schema row) (target_table row) /\
  t ∈ known_urns self.
Proof.
  unfold _make_filtered_target. case_decide as H; [done|].
  intros [= <-]. by split.
Qed.

Lemma make_filtered_target_known self row :
  dataset_urn self (target_schema row) (target_table row) ∈ known_urns self ->
  _make_filtered_target self row =
    Some (dataset_urn self (target_schema row) (target_table row)).
Proof. intros H. unfold _make_filtered_target. by case_decide. Qed.

Lemma make_filtered_target_unknown self row :
  dataset_urn self (target_schema row) (target_table row) ∉ known_urns self ->
  _make_filtered_target self row = None.
Proof. intros H. unfold _make_filtered_target. by case_decide. Qed.

(** C5, as stated, fails: the resolver makes no empty/null check of its
    own.  With a catalog that lists a schema named None, a row whose target
    schema is null is formatted to [db.None.orders], found in the registry,
    and resolved. *)
Lemma make_filtered_target_null_schema_resolves :
  target_schema null_target_row = None /\
  truthy (target_schema null_target_row) = false /\
  known_urns none_schema_self = registry fresh_self none_schema_tables /\
  _make_filtered_target none_schema_self null_target_row =
    Some (mkUrn "redshift" None "db.None.orders" "PROD").
Proof. repeat split; vm_compute; reflexivity. Qed.

(** C5, amended: the target resolver is total (it returns, never raises);
    it returns absent exactly when the identifier built from the run's
    database and the row's formatted target schema and table is not in the
    registry, so for every identifier absent from the registry it returns
    absent; otherwise it returns that identifier.  It makes no separate
    empty/null check. *)
Theorem make_filtered_target_absent_iff_unknown self row :
  let target := dataset_urn self (target_schema row) (target_table row) in
  (_make_filtered_target self row = None <-> target ∉ known_urns self) /\
  (_make_filtered_target self row = Some target <-> target ∈ known_urns self) /\
  (forall u, u ∉ known_urns self -> _make_filtered_target self row <> Some u).
Proof.
  intros target. repeat split.
  - intros H Hin. by rewrite make_filtered_target_known in H.
  - apply make_filtered_target_unknown.
  - intros H. by apply make_filtered_target_Some in H as [_ ?].
  - apply make_filtered_target_known.
  - intros u Hu H. by apply make_filtered_target_Some in H as [_ ?].
Qed.

(** ** The observed-query classifier *)

(** C9, as stated, fails on the empty text: the classifier tests
    [ddl is None], so a row whose DDL is the empty text still yields an
    Observed Query fact. *)
Lemma sql_parser_lineage_emits_on_empty_ddl :
  ddl empty_ddl_row = Some "" /\
  truthy (ddl empty_ddl_row) = false /\
  _process_sql_parser_lineage scenario_self empty_ddl_row =
    emit (add_observed_query "" "db" "public" (Some "session-1") (Some 19%Z)
            false).
Proof. repeat split. Qed.

(** C9, amended: the observed-query classifier emits an Observed Query fact
    if and only if the row's DDL field is present (not None), the empty text
    included; the fact carries the raw SQL text, the run's default database
    and schema, the row's session id and timestamp; the classifier never
    raises, and what it does is independent of the registry. *)
Theorem sql_parser_lineage_emits_iff_ddl_present self row :
  ((exists f, facts (log (_process_sql_parser_lineage self row)) = [f])
     <-> is_Some (ddl row)) /\
  _process_sql_parser_lineage self row =
    match ddl row with
    | Some q =>
        emit (add_observed_query q (database self)
                (default_schema (config self))
                (session_id row) (timestamp row) false)
    | None => mret tt
    end /\
  result (_process_sql_parser_lineage self row) = inr tt /\
  (forall s, _process_sql_parser_lineage (set_known_urns self s) row =
             _process_sql_parser_lineage self row).
Proof.
  unfold _process_sql_parser_lineage.
  destruct (ddl row) as [q|]; simpl; repeat split; try done.
  - intros _. by eexists.
  - intros [f Hf]. discriminate Hf.
Qed.

(** ** The scan-based classifier *)

(** C6: a scan row whose target resolves to a registry member and whose
    DDL text is present (not None and not empty, which is what the
    classifier's assertion tests) yields exactly one Known Edge fact, from
    the source identifier built from the row (whatever the registry says of
    it) to the resolved target, with the row's query text and timestamp and
    [merge_lineage=True]; the classifier returns normally. *)
Theorem stl_scan_emits_one_merged_edge self row q :
  ddl row = Some q -> q <> "" ->
  dataset_urn self (target_schema row) (target_table row) ∈ known_urns self ->
  _process_stl_scan_lineage self row =
    emit (add_known_query_lineage
            (mkInfo q
               (dataset_urn self (target_schema row) (target_table row))
               [dataset_urn self (source_schema row) (source_table row)]
               (timestamp row))
            true).
Proof.
  intros Hq Hne Hin. unfold _process_stl_scan_lineage.
  rewrite make_filtered_target_known by done.
  rewrite Hq. unfold assert_text. simpl.
  destruct (String.eqb_spec q ""); [done|]. reflexivity.
Qed.

(** The scenario of C6: registry {db.public.orders, db.public.customers,
    ..}, row public.customers -> public.orders with its DDL. *)
Lemma stl_scan_scenario :
  _process_stl_scan_lineage scenario_self scan_row =
    emit (add_known_query_lineage
            (mkInfo "INSERT INTO orders SELECT * FROM customers"
               (mkUrn "redshift" None "db.public.orders" "PROD")
               [mkUrn "redshift" None "db.public.customers" "PROD"]
               (Some 17%Z))
            true).
Proof.
  apply (stl_scan_emits_one_merged_edge scenario_self scan_row
           "INSERT INTO orders SELECT * FROM customers").
  - reflexivity.
  - discriminate.
  - vm_compute. reflexivity.
Defined.

(** The source of a scan edge is not checked against the registry. *)
Example stl_scan_unknown_source_still_emits :
  (dataset_urn scenario_self (source_schema scan_row_temp_source)
     (source_table scan_row_temp_source) ∉ known_urns scenario_self) /\
  facts (log (_process_stl_scan_lineage scenario_self scan_row_temp_source)) =
    [add_known_query_lineage
       (mkInfo "INSERT INTO orders SELECT * FROM scratch_tmp"
          (mkUrn "redshift" None "db.public.orders" "PROD")
          [mkUrn "redshift" None "db.public.scratch_tmp" "PROD"]
          (Some 18%Z))
       true].
Proof. split; [|vm_compute; reflexivity]. vm_compute. discriminate. Qed.

(** ** The unload-command classifier *)



Lemma bind_mkM_inr {A B} l (a : A) (f : A -> M B) :
  mkM l (inr a) ≫= f = mkM (l ++ log (f a)) (result (f a)).
Proof. reflexivity. Qed.

Lemma external_tables_of_cons s ts rest :
  external_tables_of ((s, ts) :: rest) =
  ((pair s <$> List.filter is_external ts) ++ external_tables_of rest)%list.
Proof. reflexivity. Qed.

Lemma lower_lowercased (s : string) : lowercased s (lower s).
Proof.
  induction s as [|c s IH]; simpl; [done|]. split; [|done].
  unfold lower_ascii. case_bool_decide as Hc.
  - destruct Hc as [H1 H2].
    rewrite (proj2 (Nat.leb_le _ _) H1), (proj2 (Nat.leb_le _ _) H2). simpl.
    apply nat_ascii_embedding. lia.
  - destruct (65 <=? nat_of_ascii c)%nat eqn:H1; [|done].
    destruct (nat_of_ascii c <=? 90)%nat eqn:H2; [|done].
    apply Nat.leb_le in H1, H2. lia.
Qed.

(** The lower case of a text is determined. *)
Lemma lowercased_lower (s t : string) : lowercased s t -> t = lower s.
Proof.
  revert t. induction s as [|c s IH]; intros [|c' t]; simpl; try done.
  intros [Hc Ht]. f_equal; [|by apply IH].
  unfold lower_ascii. case_bool_decide as Hr.
  - destruct Hr as [H1 H2].
    rewrite (proj2 (Nat.leb_le _ _) H1), (proj2 (Nat.leb_le _ _) H2). simpl.
    by rewrite <- Hc, ascii_nat_embedding.
  - destruct (65 <=? nat_of_ascii c)%nat eqn:H1; [|done].
    destruct (nat_of_ascii c <=? 90)%nat eqn:H2; [|done].
    apply Nat.leb_le in H1, H2. lia.
Qed.

Lemma external_inner_loop self db_schemas by_schema schema_name tables :
  db_schemas !! database self = Some by_schema ->
  (existsb is_external tables = true -> is_Some (by_schema !! schema_name)) ->
  exists edges,
    for_each tables (fun table =>
      if is_external table then
        by_schema ← map_getitem db_schemas (database self);
        schema ← map_getitem by_schema schema_name;
        emit (external_table_edge self schema_name schema table)
      else mret tt) = mkM (Emit <$> edges) (inr tt) /\
    Forall2 (external_edge_of self by_schema)
      (pair schema_name <$> List.filter is_external tables) edges.
Proof.
  intros Hdb. induction tables as [|table tables IH]; intros Hs.
  - exists []. split; [done|constructor].
  - simpl in *. destruct (is_external table) eqn:Hext; simpl in Hs.
    + destruct (Hs eq_refl) as [schema Hschema].
      destruct IH as (edges & -> & HF); [done|].
      exists (external_table_edge self schema_name schema table :: edges).
      split.
      * unfold map_getitem. rewrite Hdb, ret_bind, Hschema, ret_bind. done.
      * constructor; [|done]. exists schema, (lower (schema_type schema)).
        split; [done|]. split; [apply lower_lowercased|done].
    + destruct IH as (edges & -> & HF); [done|].
      exists edges. split; [|done]. by rewrite ret_bind.
Qed.

(** C8, as stated, fails: the edge of an external table is not emitted
    unconditionally.  The schema of the table is looked up in [db_schemas]
    with no guard; the first external table whose schema is missing there
    raises KeyError, and neither it nor any later external table gets an
    edge, even one whose schema is listed. *)
Lemma external_table_without_schema_blocks_the_rest :
  external_tables_of
    [("ext_a", [mkTable "t_a" (Some "EXTERNAL_TABLE")]);
     ("ext_b", [mkTable "t_b" (Some "EXTERNAL_TABLE")])] =
    [("ext_a", mkTable "t_a" (Some "EXTERNAL_TABLE"));
     ("ext_b", mkTable "t_b" (Some "EXTERNAL_TABLE"))] /\
  (only_ext_b_schemas !! "db" ≫= (fun by_schema => by_schema !! "ext_a")) = None /\
  (only_ext_b_schemas !! "db" ≫= (fun by_schema => by_schema !! "ext_b")) =
    Some (mkSchema "GLUE" (Some "raw")) /\
  _process_external_tables scenario_self two_external_tables only_ext_b_schemas =
    raise (KeyError "ext_a").
Proof.
  split; [reflexivity|]. split; [vm_compute; reflexivity|].
  split; vm_compute; reflexivity.
Qed.

(** C8, amended: when the snapshot lists the run's database and
    [db_schemas] holds, under that database, the schema of every external
    table of it, external-table processing returns normally and its log is
    exactly one Known Edge per table of type EXTERNAL_TABLE of that database,
    in snapshot order, whatever the registry holds: the downstream is the
    table's own identifier, the upstream is on the platform named by the
    schema's storage type in lower case, in the schema's external
    database. *)
Theorem external_tables_emit_one_edge_each self all_tables db_schemas
    schemas by_schema :
  dict_get all_tables (database self) = Some schemas ->
  db_schemas !! database self = Some by_schema ->
  (forall schema_name tables,
     (schema_name, tables) ∈ schemas ->
     existsb is_external tables = true ->
     is_Some (by_schema !! schema_name)) ->
  exists edges,
    _process_external_tables self all_tables db_schemas =
      mkM (Emit <$> edges) (inr tt) /\
    Forall2 (external_edge_of self by_schema) (external_tables_of schemas) edges.
Proof.
  intros Hall Hdb Hschemas. unfold _process_external_tables, getitem.
  rewrite Hall, ret_bind. clear Hall.
  induction schemas as [|[schema_name tables] schemas IH].
  - exists []. split; [done|constructor].
  - destruct IH as (rest & Hrest & HF).
    { intros s ts Hin. apply Hschemas. by right. }
    destruct (external_inner_loop self db_schemas by_schema schema_name tables)
      as (edges & Hedges & HF'); [done|apply Hschemas; left|].
    exists (edges ++ rest)%list. split.
    + simpl. rewrite Hedges, Hrest, bind_mkM_inr. simpl. by rewrite fmap_app.
    + rewrite external_tables_of_cons. by apply Forall2_app.
Qed.

(** The scenario of C8: external table db.ext_schema.ext_tbl, storage type
    GLUE, external database raw; the one edge is
    glue.raw.ext_tbl -> db.ext_schema.ext_tbl. *)
Lemma external_tables_scenario :
  _process_external_tables scenario_self scenario_tables scenario_schemas =
    emit (add_known_lineage_mapping
            (mkUrn "glue" None "raw.ext_tbl" "PROD")
            (mkUrn "redshift" None "db.ext_schema.ext_tbl" "PROD")).
Proof.
  destruct (external_tables_emit_one_edge_each scenario_self scenario_tables
              scenario_schemas
              [("public", [mkTable "orders" (Some "TABLE");
                           mkTable "customers" (Some "TABLE")]);
               ("ext_schema", [mkTable "ext_tbl" (Some "EXTERNAL_TABLE")])]
              {[ "public" := mkSchema "local" None;
                 "ext_schema" := mkSchema "GLUE" (Some "raw") ]})
    as (edges & -> & Hedges).
  - reflexivity.
  - reflexivity.
  - intros schema_name tables Hin Hext.
    apply list_elem_of_In in Hin. simpl in Hin.
    destruct Hin as [[= <- <-]|[[= <- <-]|[]]]; [discriminate Hext|].
    vm_compute. eauto.
  - change (external_tables_of _)
      with [("ext_schema", mkTable "ext_tbl" (Some "EXTERNAL_TABLE"))] in Hedges.
    apply Forall2_cons_inv_l in Hedges as (f & rest & Hf & Hrest & ->).
    apply Forall2_nil_inv_l in Hrest as ->.
    destruct Hf as (schema & upstream_platform & Hschema & Hlower & ->).
    vm_compute in Hschema. injection Hschema as <-.
    apply lowercased_lower in Hlower as ->. reflexivity.
Defined.

Lemma registry_elem self (all_tables : AllTables) db schemas schema tables table :
  (db, schemas) ∈ all_tables -> (schema, tables) ∈ schemas -> table ∈ tables ->
  create_from_ids platform (db +:+ "." +:+ schema +:+ "." +:+ name table)
    (env (config self)) (platform_instance (config self))
    ∈ registry self all_tables.
Proof.
  intros H1 H2 H3. unfold registry.
  apply elem_of_list_to_set, list_elem_of_bind. exists (db, schemas).
  split; [|done]. apply list_elem_of_bind. exists (schema, tables).
  split; [|done]. apply list_elem_of_bind. exists table.
  split; [|done]. apply list_elem_of_singleton. done.
Qed.

(** ** Registry membership of emitted downstreams *)

Lemma scan_downstream_known self row :
  Forall (downstream_known (known_urns self))
    (log (_process_stl_scan_lineage self row)).
Proof.
  unfold _process_stl_scan_lineage.
  destruct (_make_filtered_target self row) as [target|] eqn:Ht; [|constructor].
  apply make_filtered_target_Some in Ht as [_ Hin].
  apply log_bind_Forall.
  - unfold assert_text. destruct (ddl row) as [q|]; [|constructor].
    destruct (truthy (Some q)); constructor.
  - intros q. repeat constructor. exact Hin.
Qed.

Lemma copy_downstream_known self row :
  Forall (downstream_known (known_urns self))
    (log (_process_copy_command self row)).
Proof.
  unfold _process_copy_command.
  apply log_bind_Forall; [constructor|]. intros [[|source0 sources] ?]; simpl;
    [constructor|].
  destruct (negb _ || negb _); [constructor|].
  destruct (_make_filtered_target self row) as [target|] eqn:Ht; [|constructor].
  apply make_filtered_target_Some in Ht as [_ Hin].
  repeat constructor. exact Hin.
Qed.

Lemma external_downstream_known self (all_tables : AllTables) db_schemas :
  Forall (downstream_known (registry self all_tables))
    (log (_process_external_tables self all_tables db_schemas)).
Proof.
  unfold _process_external_tables, getitem.
  destruct (dict_get all_tables (database self)) as [schemas|] eqn:Hdb;
    [|constructor].
  apply dict_get_elem_of in Hdb. rewrite ret_bind.
  apply for_each_Forall. intros [schema_name tables] Hs.
  apply for_each_Forall. intros table Ht.
  destruct (is_external table); [|constructor].
  apply log_bind_Forall.
  { unfold map_getitem. destruct (db_schemas !! _); constructor. }
  intros by_schema. apply log_bind_Forall.
  { unfold map_getitem. destruct (by_schema !! _); constructor. }
  intros schema. repeat constructor. simpl.
  by apply (registry_elem self all_tables (database self) schemas schema_name tables).
Qed.

(** C1: with [self.known_urns] set by [build] to the registry of the
    catalog snapshot, every Known Edge fact emitted by the scan-based, the
    copy-command or the external-table classifier has its downstream in that
    registry (also in a log cut short by an exception). *)
Theorem known_edge_downstreams_in_registry self0 (all_tables : AllTables) :
  let self := set_known_urns self0 (registry self0 all_tables) in
  (forall row,
     Forall (downstream_known (registry self0 all_tables))
       (log (_process_stl_scan_lineage self row))) /\
  (forall row,
     Forall (downstream_known (registry self0 all_tables))
       (log (_process_copy_command self row))) /\
  (forall db_schemas,
     Forall (downstream_known (registry self0 all_tables))
       (log (_process_external_tables self all_tables db_schemas))).
Proof.
  intros self. split; [|split].
  - intros row. apply (scan_downstream_known self).
  - intros row. apply (copy_downstream_known self).
  - intros db_schemas. apply (external_downstream_known self).
Qed.

(** ** Database qualification *)

Lemma prefix_app_assoc (a b c : string) :
  String.prefix (a +:+ b) (a +:+ b +:+ c) = true.
Proof.
  induction a as [|ch a IH].
  - change (String.prefix b (b +:+ c) = true). apply prefix_app.
  - change (String.prefix (String ch (a +:+ b)) (String ch (a +:+ b +:+ c)) = true).
    simpl. destruct (Ascii.ascii_dec ch ch); [done|congruence].
Qed.

Lemma qualified_dataset_urn self s t : qualified self (dataset_urn self s t) = true.
Proof.
  unfold qualified, dataset_urn, create_from_ids. simpl.
  apply prefix_app_assoc.
Qed.

Ltac resolve_target self row :=
  let target := fresh "target" in
  let Ht := fresh "Ht" in
  destruct (_make_filtered_target self row) as [target|] eqn:Ht;
  [apply make_filtered_target_Some in Ht as [-> _]|].

Ltac in_database :=
  repeat constructor; simpl;
  rewrite ?qualified_dataset_urn; try done;
  try (intros ? [= <-]; done).

(** C10: whatever the row holds, a row-streamed classifier emits only its
    own kind of fact, and every identifier it builds in one (both ends of a
    scan edge, the view of a view definition, the target of a copy edge, the
    source of an unload edge) is on the run's platform and qualified with the
    run's database; the default database a fact names is the run's
    database. *)
Theorem classifiers_stay_in_run_database self row :
  Forall (in_run_database self QUERY_SCAN)
    (facts (log (_process_stl_scan_lineage self row))) /\
  Forall (in_run_database self VIEW)
    (facts (log (_process_view_lineage self row))) /\
  Forall (in_run_database self VIEW_DDL_SQL_PARSING)
    (facts (log (_process_view_lineage self row))) /\
  Forall (in_run_database self COPY)
    (facts (log (_process_copy_command self row))) /\
  Forall (in_run_database self UNLOAD)
    (facts (log (_process_unload_command self row))) /\
  Forall (in_run_database self QUERY_SQL_PARSER)
    (facts (log (_process_sql_parser_lineage self row))).
Proof.
  repeat split.
  - unfold _process_stl_scan_lineage, assert_text.
    resolve_target self row; [|constructor].
    destruct (ddl row) as [q|]; [|constructor].
    destruct (truthy (Some q)); in_database.
  - unfold _process_view_lineage.
    destruct (ddl row) as [q|]; [|constructor].
    resolve_target self row; in_database.
  - unfold _process_view_lineage.
    destruct (ddl row) as [q|]; [|constructor].
    resolve_target self row; in_database.
  - unfold _process_copy_command.
    destruct (_get_sources _ _ _ _ _ _ _) as [e|[[|source0 sources] ?]];
      try constructor.
    simpl. destruct (negb _ || negb _); [constructor|].
    resolve_target self row; in_database.
  - unfold _process_unload_command.
    destruct (_get_target_lineage _ _ _ _) as [e|[entry|]]; try constructor.
    simpl. destruct (negb _ || negb _); [constructor|].
    case_decide; in_database.
  - unfold _process_sql_parser_lineage.
    destruct (ddl row) as [q|]; in_database.
Qed.

Example scan_edge_built_urns :
  (built_urns QUERY_SCAN <$>
     facts (log (_process_stl_scan_lineage scenario_self scan_row))) =
    [[mkUrn "redshift" None "db.public.orders" "PROD";
      mkUrn "redshift" None "db.public.customers" "PROD"]].
Proof. vm_compute. reflexivity. Qed.

Lemma populate_calls_classifier self kind query processor :
  (kind, query, processor) ∈ populate_calls self -> processor = classifier kind self.
Proof.
  unfold populate_calls. rewrite !elem_of_app.
  destruct (table_lineage_mode _), (include_views _ && include_view_lineage _),
    (include_copy_lineage _), (include_unload_lineage _);
    rewrite ?elem_of_cons, ?elem_of_nil; intros H;
    repeat match goal with
           | H : _ \/ _ |- _ => destruct H
           | H : False |- _ => destruct H
           end; simplify_eq; reflexivity.
Qed.

(** C4, as stated, fails for the scan-based classifier: a row with a known
    target and no DDL text emits no fact but raises the classifier's
    assertion error. *)
Lemma stl_scan_missing_ddl_raises :
  ddl scan_row_no_ddl = None /\
  lacks_required_field QUERY_SCAN scenario_self scan_row_no_ddl /\
  _process_stl_scan_lineage scenario_self scan_row_no_ddl =
    raise (AssertionError "stl scan entry is missing query text").
Proof. split; [reflexivity|]. split; [reflexivity|]. vm_compute. reflexivity. Qed.

(** C4, amended: a row lacking a required field of the classifier it is
    routed to emits no Lineage Fact.  The observed-query and view classifiers
    (DDL None) return normally; the copy classifier (target schema or table
    empty/null, or no filename and no source resolved) and the unload
    classifier (source schema or table empty/null) return normally whenever
    their collaborator returned; the scan-based classifier (DDL None or
    empty) returns normally when the target is not in the registry and
    raises AssertionError when it is. *)
Theorem row_lacking_required_field_emits_nothing kind self row :
  lacks_required_field kind self row ->
  log (classifier kind self row) = [] /\
  result (classifier kind self row) = outcome_without_field kind self row.
Proof.
  destruct kind; simpl; intros H.
  - unfold _process_stl_scan_lineage, assert_text.
    destruct (_make_filtered_target self row); [|done].
    destruct (ddl row) as [q|]; [|done]. by rewrite H.
  - unfold _process_sql_parser_lineage. by rewrite H.
  - unfold _process_view_lineage. by rewrite H.
  - unfold _process_view_lineage. by rewrite H.
  - unfold _process_copy_command.
    destruct H as [H|[H|[Hf [rest H]]]].
    + destruct (_get_sources _ _ _ _ _ _ _) as [e|[[|source0 sources] ?]];
        [done..|]. simpl. by rewrite H.
    + destruct (_get_sources _ _ _ _ _ _ _) as [e|[[|source0 sources] ?]];
        [done..|]. simpl. rewrite H, orb_true_r. done.
    + rewrite Hf, H. done.
  - unfold _process_unload_command.
    destruct (_get_target_lineage _ _ _ _) as [e|[entry|]]; [done| |done].
    simpl. destruct H as [-> | ->]; [done|]. by rewrite orb_true_r.
Qed.

(** A copy row without a target table: nothing is emitted and the
    classifier returns. *)
Lemma copy_row_without_target_emits_nothing :
  log (_process_copy_command scenario_self copy_row_no_target) = [] /\
  result (_process_copy_command scenario_self copy_row_no_target) = inr tt.
Proof.
  exact (row_lacking_required_field_emits_nothing COPY scenario_self
           copy_row_no_target (or_intror (or_introl eq_refl))).
Defined.

(** The copy scenario: s3://bucket/file.csv loaded into public.orders. *)
Example copy_scenario :
  _process_copy_command scenario_self copy_row =
    emit (add_known_lineage_mapping
            (mkUrn "s3" None "s3://bucket/file.csv" "PROD")
            (mkUrn "redshift" None "db.public.orders" "PROD")).
Proof. vm_compute. reflexivity. Qed.

(** ** Failure isolation in the dispatch loop *)

Lemma result_unit_inr (m : M unit) u : result m = inr u -> result m = inr tt.
Proof. by destruct u. Qed.

Lemma populate_lineage_agg_returns self query lineage_type processor conn :
  result (_populate_lineage_agg self query lineage_type processor conn) = inr tt.
Proof.
  unfold _populate_lineage_agg, try_except.
  destruct (result (for_rows _ _)) as [e|u] eqn:Hr; [done|].
  by apply result_unit_inr in Hr.
Qed.

Lemma populate_lineage_agg_caught self query lineage_type processor conn e :
  result (for_rows (get_lineage_rows conn query) processor) = inl e ->
  _populate_lineage_agg self query lineage_type processor conn =
    mkM (log (for_rows (get_lineage_rows conn query) processor) ++
         [report_warning ("extract-" +:+ collector_name lineage_type) (Error_was e);
          report_status ("extract-" +:+ collector_name lineage_type) false])
      (inr tt).
Proof. intros Hr. unfold _populate_lineage_agg, try_except. by rewrite Hr. Qed.

Lemma run_call_returns self conn call : result (run_call self conn call) = inr tt.
Proof. destruct call as [[lineage_type query] processor]. apply populate_lineage_agg_returns. Qed.

Lemma dispatch_loop_total self conn (calls : list PopulateCall) :
  for_each calls (run_call self conn) =
    mkM (concat (log ∘ run_call self conn <$> calls)) (inr tt).
Proof. apply for_each_total. intros call _. apply run_call_returns. Qed.

Lemma populate_calls_queries_distinct self : NoDup ((populate_calls self).*1.*2).
Proof.
  unfold populate_calls.
  destruct (table_lineage_mode _), (include_views _ && include_view_lineage _),
    (include_copy_lineage _), (include_unload_lineage _); simpl;
    repeat (apply NoDup_cons; split;
            [rewrite ?elem_of_cons, ?elem_of_nil; intuition discriminate|]);
    apply NoDup_nil_2.
Qed.

Lemma run_call_inject_other self conn qf rows' (call : PopulateCall) :
  call.1.2 <> qf ->
  run_call self (inject_fault conn qf rows') call = run_call self conn call.
Proof.
  destruct call as [[lineage_type query] processor]. simpl. intros Hne.
  unfold _populate_lineage_agg, get_lineage_rows, inject_fault.
  by case_decide.
Qed.

(** C2: in the per-kind loop of [build], over a connection on which one
    query [qf] is answered by a faulting row sequence [rows'] (execution
    failure, or rows on which the classifier raises): the queries of the
    enabled kinds are pairwise distinct, so one kind is hit; the loop returns
    normally in the faulted and in the fault-free run and its log is the
    concatenation of the kinds' contributions; every kind with another query
    contributes exactly what it does in the fault-free run; and the faulted
    kind's exception is caught, leaving what was emitted before it followed
    by a warning keyed with the kind's name and carrying the error, and a
    failed status. *)
Theorem evidence_kind_failure_isolated self conn qf rows' :
  let conn' := inject_fault conn qf rows' in
  let calls := populate_calls self in
  NoDup (calls.*1.*2) /\
  for_each calls (run_call self conn') =
    mkM (concat (log ∘ run_call self conn' <$> calls)) (inr tt) /\
  for_each calls (run_call self conn) =
    mkM (concat (log ∘ run_call self conn <$> calls)) (inr tt) /\
  (forall call : PopulateCall, call.1.2 <> qf ->
     run_call self conn' call = run_call self conn call) /\
  (forall lineage_type processor e,
     result (for_rows rows' processor) = inl e ->
     run_call self conn' (lineage_type, qf, processor) =
       mkM (log (for_rows rows' processor) ++
            [report_warning ("extract-" +:+ collector_name lineage_type)
               (Error_was e);
             report_status ("extract-" +:+ collector_name lineage_type) false])
         (inr tt)).
Proof.
  intros conn' calls. split; [apply populate_calls_queries_distinct|].
  split; [apply dispatch_loop_total|]. split; [apply dispatch_loop_total|].
  split.
  - intros call Hne. by apply run_call_inject_other.
  - intros lineage_type processor e Hr. simpl.
    rewrite (populate_lineage_agg_caught self qf lineage_type processor conn' e).
    + unfold get_lineage_rows, conn', inject_fault. by case_decide.
    + unfold get_lineage_rows, conn', inject_fault. by case_decide.
Qed.

(** The scan query fails to execute: nothing is emitted for that kind, the
    fault is recorded under its name, and the call returns. *)
Lemma scan_fault_isolated_scenario :
  run_call scenario_self
    (inject_fault quiet_connection scan_query (mkRows [] (Some query_error)))
    (QUERY_SCAN, scan_query, _process_stl_scan_lineage scenario_self) =
  mkM [report_warning "extract-QUERY_SCAN" (Error_was query_error);
       report_status "extract-QUERY_SCAN" false] (inr tt).
Proof.
  apply (proj2 (proj2 (proj2 (proj2
    (evidence_kind_failure_isolated scenario_self quiet_connection scan_query
       (mkRows [] (Some query_error)))))) QUERY_SCAN
    (_process_stl_scan_lineage scenario_self) query_error).
  reflexivity.
Defined.

(** ** What escapes [build] *)

Lemma result_seq_inr (m k : M unit) :
  result (m ;; k) = inr tt <-> result m = inr tt /\ result k = inr tt.
Proof.
  rewrite bind_unfold. destruct (result m) as [e|[]]; simpl; split.
  - done.
  - by intros [? _].
  - done.
  - by intros [_ ?].
Qed.

Lemma result_seq_after (m k : M unit) :
  result m = inr tt -> result (m ;; k) = result k.
Proof. intros H. rewrite bind_unfold, H. done. Qed.

(** C3, as stated, fails: external-table processing runs outside any
    try/except.  With a snapshot that does not list the run's database,
    [all_tables[self.database]] raises KeyError and [build] raises it. *)
Lemma build_raises_when_database_not_in_snapshot :
  dict_get (V:=dict string (list RedshiftTable)) [] (database fresh_self) = None /\
  build fresh_self quiet_connection [] scenario_schemas =
    mkM [Emit (add_observed_query
                 "INSERT INTO orders SELECT * FROM customers" "db" "public"
                 None (Some 17%Z) false)]
      (inl (KeyError "db")).
Proof. split; [reflexivity|]. vm_compute. reflexivity. Qed.

(** C3, amended: no exception of the query execution or row
    classification of a row-streamed evidence kind escapes the per-kind loop
    of [build], which always completes; the steps outside it are unguarded:
    [build] returns normally exactly when the temp-table step, the rename
    step and external-table processing do, and when the first two return,
    [build] ends as external-table processing does, its exception
    included. *)
Theorem build_returns_iff_unguarded_steps_return self0 conn
    (all_tables : AllTables) db_schemas :
  let self := set_known_urns self0 (registry self0 all_tables) in
  result (for_each (populate_calls self) (run_call self conn)) = inr tt /\
  (result (build self0 conn all_tables db_schemas) = inr tt <->
     result (temp_tables_step self conn) = inr tt /\
     result (table_renames_step self conn) = inr tt /\
     result (_process_external_tables self all_tables db_schemas) = inr tt) /\
  (result (temp_tables_step self conn) = inr tt ->
   result (table_renames_step self conn) = inr tt ->
   result (build self0 conn all_tables db_schemas) =
     result (_process_external_tables self all_tables db_schemas)).
Proof.
  intros self.
  assert (Hloop : result (for_each (populate_calls self) (run_call self conn))
                  = inr tt) by (by rewrite dispatch_loop_total).
  split; [done|]. unfold build. fold self. split.
  - rewrite !result_seq_inr. tauto.
  - intros H1 H2. by rewrite !result_seq_after.
Qed.

(** With the temp-table and rename steps disabled, the KeyError of
    external-table processing is the outcome of [build]. *)
Lemma build_without_presteps_scenario :
  result (build fresh_self quiet_connection [] scenario_schemas) =
    inl (KeyError "db").
Proof.
  etrans.
  - apply (proj2 (proj2 (build_returns_iff_unguarded_steps_return fresh_self
             quiet_connection [] scenario_schemas))); reflexivity.
  - reflexivity.
Defined.

(** A snapshot whose schemas miss the schema of an external table: the
    lookup [db_schemas[self.database][schema_name]] raises KeyError, which
    [build] raises in turn, after the row-streamed kinds have run. *)
Example build_raises_when_schema_not_in_snapshot :
  result (build fresh_self quiet_connection scenario_tables partial_schemas) =
    inl (KeyError "ext_schema").
Proof. vm_compute. reflexivity. Qed.

(** ** The registry invariant over a whole run *)

Lemma try_except_Forall {A} (P : Event -> Prop) (m : M A) (handler : exn -> M A) :
  Forall P (log m) -> (forall e, Forall P (log (handler e))) ->
  Forall P (log (try_except m handler)).
Proof.
  intros Hm Hh. unfold try_except.
  destruct (result m) as [e|a]; simpl; [|done].
  apply Forall_app. split; [done|apply Hh].
Qed.

Lemma for_rows_Forall {A} (P : Event -> Prop) (rows : Rows A) (body : A -> M unit) :
  (forall x, Forall P (log (body x))) -> Forall P (log (for_rows rows body)).
Proof.
  intros Hb. unfold for_rows. apply log_bind_Forall.
  - apply for_each_Forall. intros x _. apply Hb.
  - intros _. destruct (fault rows); constructor.
Qed.

Lemma populate_lineage_agg_Forall (P : Event -> Prop) self query lineage_type
    processor conn :
  (forall row, Forall P (log (processor row))) ->
  (forall key message, P (report_warning key message)) ->
  (forall key ok, P (report_status key ok)) ->
  Forall P (log (_populate_lineage_agg self query lineage_type processor conn)).
Proof.
  intros Hp Hw Hs. unfold _populate_lineage_agg.
  apply try_except_Forall; [by apply for_rows_Forall|].
  intros e. repeat constructor; [apply Hw|apply Hs].
Qed.

Lemma no_known_edge_downstream_known s (l : list Event) :
  Forall (fun ev => match ev with
                    | Emit f => known_edge_downstream f = None
                    | _ => True
                    end) l ->
  Forall (downstream_known s) l.
Proof.
  intros H. eapply Forall_impl; [exact H|].
  intros [f| |]; simpl; [|done..]. by intros ->.
Qed.

(** In a run with unload lineage disabled, every Known Edge that [build]
    hands to the aggregator has its downstream in the registry built from
    the snapshot. *)
Lemma build_known_edges_in_registry self0 conn (all_tables : AllTables) db_schemas :
  include_unload_lineage (config self0) = false ->
  Forall (downstream_known (registry self0 all_tables))
    (log (build self0 conn all_tables db_schemas)).
Proof.
  intros Hunload. unfold build.
  set (self := set_known_urns self0 (registry self0 all_tables)).
  apply log_bind_Forall; [|intros _; apply log_bind_Forall;
                            [|intros _; apply log_bind_Forall]].
  - unfold temp_tables_step. destruct (resolve_temp_table_in_lineage _);
      [|constructor].
    apply for_rows_Forall. intros temp_row. by repeat constructor.
  - unfold table_renames_step. destruct (include_table_rename_lineage _);
      [|constructor].
    apply log_bind_Forall; [constructor|]. intros renames.
    apply for_each_Forall. intros [new_urn original_urn] _.
    by repeat constructor.
  - apply for_each_Forall. intros [[kind query] processor] Hin. simpl.
    apply populate_lineage_agg_Forall; [|done..].
    intros row. rewrite (populate_calls_classifier self kind query processor Hin).
    assert (kind <> UNLOAD) as Hkind.
    { revert Hin. unfold populate_calls. simpl. rewrite Hunload.
      rewrite !elem_of_app.
      destruct (table_lineage_mode _),
        (include_views _ && include_view_lineage _), (include_copy_lineage _);
        rewrite ?elem_of_cons, ?elem_of_nil; intros H;
        repeat match goal with
               | H : _ \/ _ |- _ => destruct H
               | H : False |- _ => destruct H
               end; simplify_eq; done. }
    destruct kind; simpl; [| | | | |done].
    + apply (scan_downstream_known self).
    + apply no_known_edge_downstream_known. unfold _process_sql_parser_lineage.
      destruct (ddl row); by repeat constructor.
    + apply no_known_edge_downstream_known. unfold _process_view_lineage.
      destruct (ddl row); [|constructor].
      destruct (_make_filtered_target self row); by repeat constructor.
    + apply no_known_edge_downstream_known. unfold _process_view_lineage.
      destruct (ddl row); [|constructor].
      destruct (_make_filtered_target self row); by repeat constructor.
    + apply (copy_downstream_known self).
  - intros _. apply (external_downstream_known self).
Qed.

(** * Further properties of the code *)

(** ** The registry and the resolver *)

(** X1: the registry that [build] computes holds exactly the identifiers of
    the (database, schema, table) triples of the snapshot, of every database
    it lists. *)
Theorem registry_lists_exactly_the_snapshot self (all_tables : AllTables) u :
  u ∈ registry self all_tables <->
  exists db schemas schema tables table,
    (db, schemas) ∈ all_tables /\ (schema, tables) ∈ schemas /\
    table ∈ tables /\
    u = create_from_ids platform
          (db +:+ "." +:+ schema +:+ "." +:+ name table)
          (env (config self)) (platform_instance (config self)).
Proof.
  unfold registry. rewrite elem_of_list_to_set, list_elem_of_bind. split.
  - intros ([db schemas] & Hu & Hdb).
    apply list_elem_of_bind in Hu as ([schema tables] & Hu & Hs).
    apply list_elem_of_bind in Hu as (table & Hu & Ht).
    apply list_elem_of_singleton in Hu.
    by exists db, schemas, schema, tables, table.
  - intros (db & schemas & schema & tables & table & Hdb & Hs & Ht & ->).
    pose proof (registry_elem self all_tables db schemas schema tables table
                  Hdb Hs Ht) as H.
    unfold registry in H. by rewrite elem_of_list_to_set, list_elem_of_bind in H.
Qed.

(** X2: after [build] has set the registry, every table or view that the
    snapshot lists under the run's database resolves as a target: a row
    naming its schema and table gets the table's identifier back. *)
Theorem snapshot_table_resolves_as_target self0 (all_tables : AllTables)
    schemas schema tables table row :
  (database self0, schemas) ∈ all_tables ->
  (schema, tables) ∈ schemas ->
  table ∈ tables ->
  target_schema row = Some schema ->
  target_table row = Some (name table) ->
  _make_filtered_target (set_known_urns self0 (registry self0 all_tables)) row =
    Some (create_from_ids platform
            (database self0 +:+ "." +:+ schema +:+ "." +:+ name table)
            (env (config self0)) (platform_instance (config self0))).
Proof.
  intros Hdb Hs Ht Hrs Hrt.
  pose proof (registry_elem self0 all_tables _ _ _ _ _ Hdb Hs Ht) as Hin.
  rewrite make_filtered_target_known; unfold dataset_urn; simpl;
    rewrite Hrs, Hrt; done.
Qed.

(** The customers table of the scenario's snapshot resolves. *)
Lemma snapshot_table_resolves_scenario :
  _make_filtered_target scenario_self
    (mkRow None None (Some "public") (Some "customers") None None None None) =
    Some (mkUrn "redshift" None "db.public.customers" "PROD").
Proof.
  apply (snapshot_table_resolves_as_target fresh_self scenario_tables
           [("public", [mkTable "orders" (Some "TABLE");
                        mkTable "customers" (Some "TABLE")]);
            ("ext_schema", [mkTable "ext_tbl" (Some "EXTERNAL_TABLE")])]
           "public"
           [mkTable "orders" (Some "TABLE"); mkTable "customers" (Some "TABLE")]
           (mkTable "customers" (Some "TABLE"))).
  - left.
  - left.
  - right. left.
  - reflexivity.
  - reflexivity.
Defined.

(** X3: on the object as constructed, before [build] has set the registry,
    the target resolver finds nothing: for every row the scan and view
    classifiers return without a fact (the scan assertion is not reached),
    and the copy and unload classifiers emit nothing. *)
Theorem classifiers_before_build_emit_nothing config db legacy time_window row :
  let self := __init__ config db legacy time_window in
  _make_filtered_target self row = None /\
  _process_stl_scan_lineage self row = mret tt /\
  _process_view_lineage self row = mret tt /\
  log (_process_copy_command self row) = [] /\
  log (_process_unload_command self row) = [].
Proof.
  intros self.
  assert (Hnone : _make_filtered_target self row = None).
  { apply make_filtered_target_unknown. apply not_elem_of_empty. }
  split; [done|]. split; [|split; [|split]].
  - unfold _process_stl_scan_lineage. by rewrite Hnone.
  - unfold _process_view_lineage. rewrite Hnone. by destruct (ddl row).
  - unfold _process_copy_command. rewrite Hnone.
    destruct (_get_sources _ _ _ _ _ _ _) as [e|[[|source0 sources] ?]];
      try done.
    simpl. by destruct (negb _ || negb _).
  - unfold _process_unload_command.
    destruct (_get_target_lineage _ _ _ _) as [e|[entry|]]; try done.
    simpl. destruct (negb _ || negb _); [done|].
    case_decide as Hin; [done|]. by apply not_elem_of_empty in Hin.
Qed.

(** ** The view and copy classifiers *)

(** X4: the view classifier never raises; it emits one View Definition fact
    (the resolved target, the row's DDL, the run's default database and
    schema) exactly when the DDL is not None and the target identifier is in
    the registry, and nothing otherwise.  An empty DDL text is not
    rejected. *)
Theorem view_lineage_emits_iff_ddl_and_known_target self row :
  let target := dataset_urn self (target_schema row) (target_table row) in
  result (_process_view_lineage self row) = inr tt /\
  (forall q, ddl row = Some q -> target ∈ known_urns self ->
     _process_view_lineage self row =
       emit (add_view_definition target q (database self)
               (default_schema (config self)))) /\
  ((ddl row = None \/ target ∉ known_urns self) ->
     _process_view_lineage self row = mret tt).
Proof.
  intros target. unfold _process_view_lineage. split; [|split].
  - destruct (ddl row); [|done]. by destruct (_make_filtered_target self row).
  - intros q -> Hin. by rewrite make_filtered_target_known.
  - intros [->|Hout]; [done|].
    rewrite make_filtered_target_unknown by done. by destruct (ddl row).
Qed.

(** A late-binding view row with an empty DDL text and a known target. *)
Lemma view_lineage_scenario :
  _process_view_lineage scenario_self
    (mkRow None None (Some "public") (Some "orders") (Some "") None None None) =
    emit (add_view_definition (mkUrn "redshift" None "db.public.orders" "PROD")
            "" "db" "public").
Proof.
  apply (proj1 (proj2 (view_lineage_emits_iff_ddl_and_known_target scenario_self
           (mkRow None None (Some "public") (Some "orders") (Some "") None None
              None))) "").
  - reflexivity.
  - vm_compute. reflexivity.
Defined.

(** X5: the copy classifier emits one Known Edge (a plain lineage mapping)
    from the first source the storage resolver yields to the resolved
    target exactly when the resolver yields a source, the target schema and
    table are non-empty and the target identifier is in the registry;
    otherwise it emits nothing.  Further sources of the resolver are
    ignored. *)
Theorem copy_emits_iff_ready self row :
  (forall s3, copy_ready self row s3 ->
     _process_copy_command self row =
       emit (add_known_lineage_mapping s3
               (dataset_urn self (target_schema row) (target_table row)))) /\
  ((~ exists s3, copy_ready self row s3) ->
     log (_process_copy_command self row) = []).
Proof.
  unfold copy_ready, _process_copy_command. split.
  - intros s3 ((source0 & sources & temp & -> & ->) & -> & -> & Hin). simpl.
    by rewrite make_filtered_target_known.
  - intros Hno.
    destruct (_get_sources _ _ _ _ _ _ _) as [e|[[|source0 sources] temp]];
      try done.
    simpl.
    destruct (truthy (target_schema row)) eqn:Hs; [|done].
    destruct (truthy (target_table row)) eqn:Ht; [|done].
    simpl.
    destruct (_make_filtered_target self row) as [target|] eqn:Htarget; [|done].
    apply make_filtered_target_Some in Htarget as [-> Hin].
    exfalso. apply Hno. exists (ds_urn source0).
    repeat split; try done. by exists source0, sources, temp.
Qed.

(** The copy scenario, read through the characterisation. *)
Lemma copy_ready_scenario :
  _process_copy_command scenario_self copy_row =
    emit (add_known_lineage_mapping
            (mkUrn "s3" None "s3://bucket/file.csv" "PROD")
            (mkUrn "redshift" None "db.public.orders" "PROD")).
Proof.
  apply (proj1 (copy_emits_iff_ready scenario_self copy_row)
           (mkUrn "s3" None "s3://bucket/file.csv" "PROD")).
  unfold copy_ready. split; [|split; [|split]].
  - eexists _, _, _. split; reflexivity.
  - reflexivity.
  - reflexivity.
  - vm_compute. reflexivity.
Defined.

(** X6: whatever the row, a classifier makes at most one aggregator call,
    of its own kind; when it makes one it returns normally, so a classifier
    that raises has handed no fact to the aggregator. *)
Theorem classifier_emits_at_most_one_fact kind self row :
  (facts (log (classifier kind self row)) = [] \/
   exists f, facts (log (classifier kind self row)) = [f] /\
             fact_of_kind kind f = true /\
             result (classifier kind self row) = inr tt).
Proof.
  destruct kind; simpl.
  - unfold _process_stl_scan_lineage, assert_text.
    destruct (_make_filtered_target self row); [|by left].
    destruct (ddl row) as [q|]; [|by left].
    destruct (truthy (Some q)); [right; by eexists|by left].
  - unfold _process_sql_parser_lineage.
    destruct (ddl row); [right; by eexists|by left].
  - unfold _process_view_lineage. destruct (ddl row); [|by left].
    destruct (_make_filtered_target self row); [right; by eexists|by left].
  - unfold _process_view_lineage. destruct (ddl row); [|by left].
    destruct (_make_filtered_target self row); [right; by eexists|by left].
  - unfold _process_copy_command.
    destruct (_get_sources _ _ _ _ _ _ _) as [e|[[|source0 sources] ?]];
      try by left.
    simpl. destruct (negb _ || negb _); [by left|].
    destruct (_make_filtered_target self row); [right; by eexists|by left].
  - unfold _process_unload_command.
    destruct (_get_target_lineage _ _ _ _) as [e|[entry|]]; try by left.
    simpl. destruct (negb _ || negb _); [by left|].
    case_decide; [by left|right; by eexists].
Qed.

(** ** One evidence kind *)

Lemma bind_assoc {A B C} (m : M A) (f : A -> M B) (g : B -> M C) :
  (m ≫= f) ≫= g = m ≫= (fun a => f a ≫= g).
Proof.
  rewrite !bind_unfold. destruct (result m) as [e|a]; simpl; [done|].
  rewrite bind_unfold. destruct (result (f a)) as [e|b]; simpl; [done|].
  by rewrite app_assoc.
Qed.

(** A loop stops at the first iteration that raises. *)
Lemma for_each_stops {A} (pre post : list A) (bad : A) (body : A -> M unit) e :
  (forall x, x ∈ pre -> result (body x) = inr tt) ->
  result (body bad) = inl e ->
  for_each (pre ++ bad :: post) body =
    mkM (concat (log ∘ body <$> pre) ++ log (body bad)) (inl e).
Proof.
  intros Hpre Hbad. induction pre as [|x pre IH]; simpl.
  - by rewrite bind_unfold, Hbad.
  - rewrite bind_unfold, (Hpre x) by left.
    rewrite IH by (intros y Hy; apply Hpre; by right). simpl.
    by rewrite app_assoc.
Qed.

(** X7: when the classifier raises on a row of a kind's stream, the rows
    before it keep their facts, what the failing row logged stays, the rows
    after it are never classified, and the fault is recorded under the
    kind's name; the call returns. *)
Theorem populate_lineage_agg_stops_at_first_fault self query lineage_type
    processor conn pre bad post flt e :
  get_lineage_rows conn query = mkRows (pre ++ bad :: post) flt ->
  (forall row, row ∈ pre -> result (processor row) = inr tt) ->
  result (processor bad) = inl e ->
  _populate_lineage_agg self query lineage_type processor conn =
    mkM (concat (log ∘ processor <$> pre) ++ log (processor bad) ++
         [report_warning ("extract-" +:+ collector_name lineage_type)
            (Error_was e);
          report_status ("extract-" +:+ collector_name lineage_type) false])
      (inr tt).
Proof.
  intros Hrows Hpre Hbad.
  unfold _populate_lineage_agg, try_except, for_rows. rewrite Hrows. simpl.
  rewrite (for_each_stops pre post bad processor e Hpre Hbad). simpl.
  by rewrite <- app_assoc.
Qed.

(** A scan stream whose second row lacks its query text: the first row's
    edge is kept, the third row's edge is never emitted. *)
Lemma scan_stream_stops_scenario :
  _populate_lineage_agg scenario_self scan_query QUERY_SCAN
    (_process_stl_scan_lineage scenario_self) broken_scan_connection =
  mkM [Emit (add_known_query_lineage
               (mkInfo "INSERT INTO orders SELECT * FROM customers"
                  (mkUrn "redshift" None "db.public.orders" "PROD")
                  [mkUrn "redshift" None "db.public.customers" "PROD"]
                  (Some 17%Z))
               true);
       report_warning "extract-QUERY_SCAN"
         (Error_was (AssertionError "stl scan entry is missing query text"));
       report_status "extract-QUERY_SCAN" false]
    (inr tt).
Proof.
  apply (populate_lineage_agg_stops_at_first_fault scenario_self scan_query
           QUERY_SCAN (_process_stl_scan_lineage scenario_self)
           broken_scan_connection [scan_row] scan_row_no_ddl
           [scan_row_temp_source] None
           (AssertionError "stl scan entry is missing query text")).
  - reflexivity.
  - intros row Hrow. apply list_elem_of_singleton in Hrow as ->.
    vm_compute. reflexivity.
  - vm_compute. reflexivity.
Defined.

(** X8: when the classifier returns on every row of a kind's stream, the
    call logs the rows' facts in stream order; a stream that ends normally
    adds nothing to the report, and a stream that faults after its rows
    keeps their facts and records the fault. *)
Theorem populate_lineage_agg_keeps_rows_before_stream_fault self query
    lineage_type processor conn :
  (forall row, row ∈ yielded (get_lineage_rows conn query) ->
     result (processor row) = inr tt) ->
  _populate_lineage_agg self query lineage_type processor conn =
    mkM (concat (log ∘ processor <$> yielded (get_lineage_rows conn query)) ++
         match fault (get_lineage_rows conn query) with
         | Some e =>
             [report_warning ("extract-" +:+ collector_name lineage_type)
                (Error_was e);
              report_status ("extract-" +:+ collector_name lineage_type) false]
         | None => []
         end)
      (inr tt).
Proof.
  intros Hrows. unfold _populate_lineage_agg, try_except, for_rows.
  rewrite (for_each_total _ _ Hrows).
  destruct (fault (get_lineage_rows conn query)) as [e|]; simpl.
  - rewrite app_nil_r. reflexivity.
  - rewrite bind_unfold. reflexivity.
Qed.

(** The connection drops after one observed row: its fact is kept. *)
Lemma dropped_stream_scenario :
  _populate_lineage_agg scenario_self
    (list_insert_create_queries_sql "db" 0 100) QUERY_SQL_PARSER
    (_process_sql_parser_lineage scenario_self) dropped_connection =
  mkM [Emit (add_observed_query "INSERT INTO orders SELECT * FROM customers"
               "db" "public" None (Some 17%Z) false);
       report_warning "extract-QUERY_SQL_PARSER" (Error_was query_error);
       report_status "extract-QUERY_SQL_PARSER" false]
    (inr tt).
Proof.
  apply (populate_lineage_agg_keeps_rows_before_stream_fault scenario_self
           (list_insert_create_queries_sql "db" 0 100) QUERY_SQL_PARSER
           (_process_sql_parser_lineage scenario_self) dropped_connection).
  intros row _. unfold _process_sql_parser_lineage. by destruct (ddl row).
Defined.

Lemma facts_app (l1 l2 : list Event) : facts (l1 ++ l2) = (facts l1 ++ facts l2)%list.
Proof. apply omap_app. Qed.

Lemma classifier_log_length kind self row :
  length (log (classifier kind self row)) <= 1.
Proof.
  destruct kind; simpl.
  - unfold _process_stl_scan_lineage, assert_text.
    destruct (_make_filtered_target self row); [|simpl; lia].
    destruct (ddl row) as [q|]; [|simpl; lia].
    destruct (truthy (Some q)); simpl; lia.
  - unfold _process_sql_parser_lineage. destruct (ddl row); simpl; lia.
  - unfold _process_view_lineage. destruct (ddl row); [|simpl; lia].
    destruct (_make_filtered_target self row); simpl; lia.
  - unfold _process_view_lineage. destruct (ddl row); [|simpl; lia].
    destruct (_make_filtered_target self row); simpl; lia.
  - unfold _process_copy_command.
    destruct (_get_sources _ _ _ _ _ _ _) as [e|[[|source0 sources] ?]];
      try (simpl; lia).
    simpl. destruct (negb _ || negb _); [simpl; lia|].
    destruct (_make_filtered_target self row); simpl; lia.
  - unfold _process_unload_command.
    destruct (_get_target_lineage _ _ _ _) as [e|[entry|]]; try (simpl; lia).
    simpl. destruct (negb _ || negb _); [simpl; lia|].
    case_decide; simpl; lia.
Qed.

Lemma facts_length (l : list Event) : length (facts l) <= length l.
Proof.
  induction l as [|[f| |] l IH]; simpl; lia.
Qed.

Lemma for_each_facts_bound {A} (xs : list A) (body : A -> M unit) :
  (forall x, length (log (body x)) <= 1) ->
  length (facts (log (for_each xs body))) <= length xs.
Proof.
  intros Hb. induction xs as [|x xs IH]; simpl; [lia|].
  rewrite bind_unfold.
  pose proof (facts_length (log (body x))). specialize (Hb x).
  destruct (result (body x)); simpl; [lia|].
  rewrite facts_app, length_app. lia.
Qed.

(** X9: a kind contributes at most one fact per row that its stream
    yields, whether or not it ends in a fault. *)
Theorem populate_lineage_agg_facts_bounded self query lineage_type kind conn :
  length (facts (log (_populate_lineage_agg self query lineage_type
                        (classifier kind self) conn)))
  <= length (yielded (get_lineage_rows conn query)).
Proof.
  pose proof (for_each_facts_bound (yielded (get_lineage_rows conn query))
                (classifier kind self) (classifier_log_length kind self)) as Hb.
  unfold _populate_lineage_agg, try_except, for_rows.
  rewrite bind_unfold.
  destruct (result (for_each _ _)) as [e|[]]; simpl.
  - rewrite facts_app, length_app. simpl. lia.
  - destruct (fault _) as [e|]; simpl;
      rewrite !facts_app, !length_app; simpl; lia.
Qed.

(** ** The kinds that a run consults *)

(** X10: [build] consults the enabled kinds in one fixed order (SQL
    parser, scan, view, late-binding view, copy, unload), each with its
    query for the run's database and time window and with its classifier:
    the SQL parser under SQL_BASED and MIXED, the scan under STL_SCAN_BASED
    and MIXED, both view kinds only when include_views and
    include_view_lineage are both set, copy and unload under their own
    switch. *)
Theorem populate_calls_follow_config self :
  populate_calls self =
    (fun kind => (kind, query_of self kind, classifier kind self))
      <$> List.filter (enabled (config self)) all_kinds.
Proof.
  unfold populate_calls, all_kinds, enabled. simpl.
  destruct (table_lineage_mode _), (include_views _), (include_view_lineage _),
    (include_copy_lineage _), (include_unload_lineage _); reflexivity.
Qed.

Lemma for_each_ext {A} (xs : list A) (body body' : A -> M unit) :
  (forall x, x ∈ xs -> body x = body' x) ->
  for_each xs body = for_each xs body'.
Proof.
  induction xs as [|x xs IH]; intros H; simpl; [done|].
  rewrite (H x) by left. rewrite IH; [done|]. intros y Hy. apply H. by right.
Qed.

Lemma populate_calls_kind_enabled self kind query processor :
  (kind, query, processor) ∈ populate_calls self ->
  enabled (config self) kind = true /\ query = query_of self kind.
Proof.
  unfold populate_calls, enabled. rewrite !elem_of_app.
  destruct (table_lineage_mode _), (include_views _ && include_view_lineage _),
    (include_copy_lineage _), (include_unload_lineage _);
    rewrite ?elem_of_cons, ?elem_of_nil; intros H;
    repeat match goal with
           | H : _ \/ _ |- _ => destruct H
           | H : False |- _ => destruct H
           end; simplify_eq; done.
Qed.

Lemma query_of_inj self kind kind' : query_of self kind = query_of self kind' -> kind = kind'.
Proof. by destruct kind, kind'. Qed.

(** X11: the query of a disabled kind is never executed: whatever the
    connection would answer to it, rows or a fault, the per-kind loop logs
    and returns the same. *)
Theorem disabled_kind_query_never_runs self conn kind rows' :
  enabled (config self) kind = false ->
  for_each (populate_calls self)
    (run_call self (inject_fault conn (query_of self kind) rows')) =
  for_each (populate_calls self) (run_call self conn).
Proof.
  intros Hoff. apply for_each_ext. intros [[kind' query] processor] Hin.
  apply run_call_inject_other. simpl. intros ->.
  apply populate_calls_kind_enabled in Hin as [Hon Hq].
  apply query_of_inj in Hq as ->. congruence.
Qed.

(** Under SQL_BASED lineage the scan query is not run, so a failing scan
    log changes nothing. *)
Lemma sql_only_scan_never_runs :
  for_each (populate_calls sql_only_self)
    (run_call sql_only_self
       (inject_fault quiet_connection scan_query (mkRows [] (Some query_error)))) =
  for_each (populate_calls sql_only_self) (run_call sql_only_self quiet_connection).
Proof.
  apply (disabled_kind_query_never_runs sql_only_self quiet_connection
           QUERY_SCAN (mkRows [] (Some query_error))).
  reflexivity.
Defined.

(** ** A whole run *)

Lemma log_seq (m k : M unit) :
  result m = inr tt -> log (m ;; k) = (log m ++ log k)%list.
Proof. intros H. by rewrite bind_unfold, H. Qed.

(** X12: when the temp-table step and the rename step return, the log of
    [build] is, in this order, the temp-table facts, the renames, the
    contribution of each enabled kind in the order of [populate_calls], and
    last what external-table processing logged. *)
Theorem build_log_in_order self0 conn (all_tables : AllTables) db_schemas :
  let self := set_known_urns self0 (registry self0 all_tables) in
  result (temp_tables_step self conn) = inr tt ->
  result (table_renames_step self conn) = inr tt ->
  log (build self0 conn all_tables db_schemas) =
    (log (temp_tables_step self conn) ++
     log (table_renames_step self conn) ++
     concat (log ∘ run_call self conn <$> populate_calls self) ++
     log (_process_external_tables self all_tables db_schemas))%list.
Proof.
  intros self Htemp Hren. unfold build. fold self.
  rewrite log_seq by done. f_equal.
  rewrite log_seq by done. f_equal.
  rewrite dispatch_loop_total. reflexivity.
Qed.

(** The scenario's run on the quiet connection. *)
Lemma build_log_in_order_scenario :
  log (build fresh_self quiet_connection scenario_tables scenario_schemas) =
    (log (temp_tables_step scenario_self quiet_connection) ++
     log (table_renames_step scenario_self quiet_connection) ++
     concat (log ∘ run_call scenario_self quiet_connection
               <$> populate_calls scenario_self) ++
     log (_process_external_tables scenario_self scenario_tables
            scenario_schemas))%list.
Proof.
  apply (build_log_in_order fresh_self quiet_connection scenario_tables
           scenario_schemas); reflexivity.
Defined.

(** X13: the steps before the loop are not isolated: when the temp-table
    source faults, or rename detection raises, [build] raises that
    exception at once, with only what was logged so far; no evidence kind is
    queried and external tables are not processed. *)
Theorem build_aborts_when_a_prestep_raises self0 conn (all_tables : AllTables)
    db_schemas :
  let self := set_known_urns self0 (registry self0 all_tables) in
  (forall e, result (temp_tables_step self conn) = inl e ->
     build self0 conn all_tables db_schemas =
       mkM (log (temp_tables_step self conn)) (inl e)) /\
  (forall e, result (temp_tables_step self conn) = inr tt ->
     result (table_renames_step self conn) = inl e ->
     build self0 conn all_tables db_schemas =
       mkM (log (temp_tables_step self conn) ++
            log (table_renames_step self conn)) (inl e)).
Proof.
  intros self. unfold build. fold self. split.
  - intros e H. by rewrite bind_unfold, H.
  - intros e H1 H2. rewrite bind_unfold, H1. simpl.
    by rewrite bind_unfold, H2.
Qed.

(** The temp-table source fails after one row: its fact is logged and the
    run ends there, although every kind is enabled and the snapshot holds an
    external table. *)
Lemma build_aborts_scenario :
  build temp_self quiet_connection scenario_tables scenario_schemas =
    mkM [Emit (add_observed_query "CREATE TEMP TABLE t AS SELECT 1" "db"
                 "public" (Some "session-9") (Some 5%Z) true)]
      (inl query_error).
Proof.
  apply (proj1 (build_aborts_when_a_prestep_raises temp_self quiet_connection
                  scenario_tables scenario_schemas) query_error).
  reflexivity.
Defined.

Lemma concat_emit {A} (f : A -> Fact) (xs : list A) :
  concat (log ∘ (fun x => emit (f x)) <$> xs) = Emit <$> (f <$> xs).
Proof. induction xs as [|x xs IH]; simpl; [done|]. f_equal. exact IH. Qed.

(** X14: with temp-table resolution enabled, every temp-table row is
    forwarded, in order, as an Observed Query fact flagged as a known temp
    table, with the row's query text, session id and start time and the
    run's default database and schema; when the row source faults, the facts
    already forwarded stay and the fault is raised.  Disabled, the step does
    nothing. *)
Theorem temp_tables_forwarded_as_known_temp self conn :
  temp_tables_step self conn =
    if resolve_temp_table_in_lineage (config self) then
      mkM (Emit <$>
             ((fun temp_row =>
                 add_observed_query (query_text temp_row) (database self)
                   (default_schema (config self))
                   (Some (tmp_session_id temp_row))
                   (Some (start_time temp_row)) true)
                <$> yielded (get_temp_tables (_lineage_v1 self) conn)))
        (match fault (get_temp_tables (_lineage_v1 self) conn) with
         | Some e => inl e
         | None => inr tt
         end)
    else mret tt.
Proof.
  unfold temp_tables_step, for_rows.
  destruct (resolve_temp_table_in_lineage _); [|done].
  rewrite for_each_total by done. rewrite bind_unfold. simpl.
  rewrite (concat_emit (fun temp_row =>
             add_observed_query (query_text temp_row) (database self)
               (default_schema (config self)) (Some (tmp_session_id temp_row))
               (Some (start_time temp_row)) true)).
  by destruct (fault _); simpl; rewrite app_nil_r.
Qed.

(** X15: with rename tracking enabled, every (new, original) pair that
    rename detection returns is forwarded, in order, as a Rename fact from
    the original to the new identifier; an exception of rename detection is
    raised with nothing logged.  Disabled, the step does nothing. *)
Theorem table_renames_forwarded self conn :
  table_renames_step self conn =
    if include_table_rename_lineage (config self) then
      match _process_table_renames (_lineage_v1 self) (database self) conn with
      | inl e => raise e
      | inr table_renames =>
          mkM (Emit <$> ((fun item => add_table_rename item.2 item.1)
                           <$> table_renames))
            (inr tt)
      end
    else mret tt.
Proof.
  unfold table_renames_step.
  destruct (include_table_rename_lineage _); [|done].
  destruct (_process_table_renames _ _ _) as [e|table_renames]; [done|].
  rewrite bind_unfold. simpl.
  rewrite for_each_total by (by intros [??] _). simpl.
  f_equal. induction table_renames as [|[new_urn original_urn] renames IH];
    simpl; [done|]. f_equal. exact IH.
Qed.

(** ** Invariants of a whole run *)

(** Every event a classifier can log, by kind. *)
Lemma classifier_log_shape kind self row ev :
  ev ∈ log (classifier kind self row) ->
  let target := dataset_urn self (target_schema row) (target_table row) in
  let source := dataset_urn self (source_schema row) (source_table row) in
  match kind with
  | QUERY_SQL_PARSER =>
      exists q, ev = Emit (add_observed_query q (database self)
                             (default_schema (config self)) (session_id row)
                             (timestamp row) false)
  | QUERY_SCAN =>
      exists q, ev = Emit (add_known_query_lineage
                             (mkInfo q target [source] (timestamp row)) true)
                /\ target ∈ known_urns self
  | VIEW | VIEW_DDL_SQL_PARSING =>
      exists q, ev = Emit (add_view_definition target q (database self)
                             (default_schema (config self)))
                /\ target ∈ known_urns self
  | COPY =>
      exists s3, ev = Emit (add_known_lineage_mapping s3 target)
                 /\ target ∈ known_urns self
  | UNLOAD =>
      exists out, ev = Emit (add_known_lineage_mapping source out)
                  /\ source ∈ known_urns self
  end.
Proof.
  intros Hev target source. destruct kind; simpl in Hev.
  - unfold _process_stl_scan_lineage, assert_text in Hev.
    destruct (_make_filtered_target self row) as [t|] eqn:Ht;
      [|by apply elem_of_nil in Hev].
    apply make_filtered_target_Some in Ht as [-> Hin].
    destruct (ddl row) as [q|]; [|by apply elem_of_nil in Hev].
    destruct (truthy (Some q)); [|by apply elem_of_nil in Hev].
    apply list_elem_of_singleton in Hev as ->. by exists q.
  - unfold _process_sql_parser_lineage in Hev.
    destruct (ddl row) as [q|]; [|by apply elem_of_nil in Hev].
    apply list_elem_of_singleton in Hev as ->. by exists q.
  - unfold _process_view_lineage in Hev.
    destruct (ddl row) as [q|]; [|by apply elem_of_nil in Hev].
    destruct (_make_filtered_target self row) as [t|] eqn:Ht;
      [|by apply elem_of_nil in Hev].
    apply make_filtered_target_Some in Ht as [-> Hin].
    apply list_elem_of_singleton in Hev as ->. by exists q.
  - unfold _process_view_lineage in Hev.
    destruct (ddl row) as [q|]; [|by apply elem_of_nil in Hev].
    destruct (_make_filtered_target self row) as [t|] eqn:Ht;
      [|by apply elem_of_nil in Hev].
    apply make_filtered_target_Some in Ht as [-> Hin].
    apply list_elem_of_singleton in Hev as ->. by exists q.
  - unfold _process_copy_command in Hev.
    destruct (_get_sources _ _ _ _ _ _ _) as [e|[[|source0 sources] ?]];
      try by apply elem_of_nil in Hev.
    simpl in Hev. destruct (negb _ || negb _); [by apply elem_of_nil in Hev|].
    destruct (_make_filtered_target self row) as [t|] eqn:Ht;
      [|by apply elem_of_nil in Hev].
    apply make_filtered_target_Some in Ht as [-> Hin].
    apply list_elem_of_singleton in Hev as ->. by eexists.
  - unfold _process_unload_command in Hev.
    destruct (_get_target_lineage _ _ _ _) as [e|[entry|]];
      try by apply elem_of_nil in Hev.
    simpl in Hev. destruct (negb _ || negb _); [by apply elem_of_nil in Hev|].
    case_decide as Hin; [by apply elem_of_nil in Hev|].
    apply list_elem_of_singleton in Hev as ->. by eexists.
Qed.

(** Every event of external-table processing is a lineage mapping. *)
Lemma external_log_only_mappings self (all_tables : AllTables) db_schemas :
  Forall (fun ev => exists u d, ev = Emit (add_known_lineage_mapping u d))
    (log (_process_external_tables self all_tables db_schemas)).
Proof.
  unfold _process_external_tables, getitem.
  destruct (dict_get all_tables (database self)) as [schemas|]; [|constructor].
  rewrite ret_bind.
  apply for_each_Forall. intros [schema_name tables] _.
  apply for_each_Forall. intros table _.
  destruct (is_external table); [|constructor].
  apply log_bind_Forall.
  { unfold map_getitem. destruct (db_schemas !! _); constructor. }
  intros by_schema. apply log_bind_Forall.
  { unfold map_getitem. destruct (by_schema !! _); constructor. }
  intros schema. repeat constructor. unfold external_table_edge. by eexists _, _.
Qed.

(** An invariant of the events holds of a run when it holds of the
    temp-table facts, of the renames, of what each enabled kind's classifier
    logs and of its report entries, and of the external-table edges. *)
Lemma build_Forall (P : Event -> Prop) self0 conn (all_tables : AllTables)
    db_schemas :
  let self := set_known_urns self0 (registry self0 all_tables) in
  Forall P (log (temp_tables_step self conn)) ->
  Forall P (log (table_renames_step self conn)) ->
  (forall kind, enabled (config self0) kind = true ->
     (forall row ev, ev ∈ log (classifier kind self row) -> P ev) /\
     (forall e, P (report_warning ("extract-" +:+ collector_name kind)
                     (Error_was e))) /\
     P (report_status ("extract-" +:+ collector_name kind) false)) ->
  Forall P (log (_process_external_tables self all_tables db_schemas)) ->
  Forall P (log (build self0 conn all_tables db_schemas)).
Proof.
  intros self Htemp Hren Hkinds Hext. unfold build. fold self.
  apply log_bind_Forall; [done|]. intros _.
  apply log_bind_Forall; [done|]. intros _.
  apply log_bind_Forall; [|done].
  apply for_each_Forall. intros [[kind query] processor] Hin. simpl.
  rewrite (populate_calls_classifier self kind query processor Hin).
  apply populate_calls_kind_enabled in Hin as [Hon _].
  destruct (Hkinds kind Hon) as (Hrows & Hwarn & Hstatus).
  unfold _populate_lineage_agg. apply try_except_Forall.
  - apply for_rows_Forall. intros row. apply Forall_forall. apply Hrows.
  - intros e. repeat constructor; [apply Hwarn|apply Hstatus].
Qed.

Lemma temp_tables_log_shape self conn ev :
  ev ∈ log (temp_tables_step self conn) ->
  resolve_temp_table_in_lineage (config self) = true /\
  exists text sess time,
    ev = Emit (add_observed_query text (database self)
                 (default_schema (config self)) sess time true).
Proof.
  unfold temp_tables_step.
  destruct (resolve_temp_table_in_lineage _); [|by intros ?%elem_of_nil].
  intros Hev. split; [done|]. revert ev Hev. apply Forall_forall.
  apply for_rows_Forall. intros temp_row. repeat constructor. by eexists _, _, _.
Qed.

Lemma table_renames_log_shape self conn ev :
  ev ∈ log (table_renames_step self conn) ->
  include_table_rename_lineage (config self) = true /\
  exists original_urn new_urn, ev = Emit (add_table_rename original_urn new_urn).
Proof.
  unfold table_renames_step.
  destruct (include_table_rename_lineage _); [|by intros ?%elem_of_nil].
  intros Hev. split; [done|]. revert ev Hev. apply Forall_forall.
  apply log_bind_Forall; [constructor|]. intros table_renames.
  apply for_each_Forall. intros [new_urn original_urn] _.
  repeat constructor. by eexists _, _.
Qed.

Ltac run_invariant :=
  apply build_Forall;
  [ apply Forall_forall; intros ev [Hon (text & sess & time & ->)]%temp_tables_log_shape
  | apply Forall_forall; intros ev [Hon (original_urn & new_urn & ->)]%table_renames_log_shape
  | intros kind Hon; split; [intros row ev Hev%classifier_log_shape|]
  | eapply Forall_impl; [apply external_log_only_mappings|];
    intros ev (u & d & ->) ].

(** X16: every fact of a run is behind its configuration switch: a
    known-temp observed query appears only with temp-table resolution
    enabled, a plain observed query only with the SQL parser kind enabled, a
    query edge only with the scan kind enabled (and always merged), a view
    definition only with both view switches set, a rename only with rename
    tracking enabled. *)
Theorem build_facts_are_gated self0 conn (all_tables : AllTables) db_schemas :
  Forall (gated (config self0)) (log (build self0 conn all_tables db_schemas)).
Proof.
  run_invariant; simpl; try done.
  destruct kind; simpl in *;
    repeat match goal with
           | H : exists _, _ |- _ => destruct H as [? H]
           | H : _ /\ _ |- _ => destruct H as [H ?]
           end; subst; simpl; done.
Qed.

(** X18: every Observed Query and View Definition fact of a run, the
    temp-table facts included, names the run's database as default database
    and the configured default schema. *)
Theorem build_facts_name_run_defaults self0 conn (all_tables : AllTables)
    db_schemas :
  Forall (names_run_defaults self0)
    (log (build self0 conn all_tables db_schemas)).
Proof.
  run_invariant; simpl; try done.
  destruct kind; simpl in *;
    repeat match goal with
           | H : exists _, _ |- _ => destruct H as [? H]
           | H : _ /\ _ |- _ => destruct H as [H ?]
           end; subst; simpl; done.
Qed.

(** X19: every edge and view of a run has an end in the registry built
    from the snapshot: the downstream of each query edge, the view of each
    View Definition, and of each lineage mapping the downstream (copy and
    external-table edges) or, only with unload lineage enabled, the
    upstream (unload edges). *)
Theorem build_facts_anchored_in_registry self0 conn (all_tables : AllTables)
    db_schemas :
  Forall (anchored_in (config self0) (registry self0 all_tables))
    (log (build self0 conn all_tables db_schemas)).
Proof.
  apply build_Forall.
  - apply Forall_forall.
    by intros ev [_ (? & ? & ? & ->)]%temp_tables_log_shape.
  - apply Forall_forall.
    by intros ev [_ (? & ? & ->)]%table_renames_log_shape.
  - intros kind Hon. split; [intros row ev Hev%classifier_log_shape|done].
    destruct kind; simpl in *;
      repeat match goal with
             | H : exists _, _ |- _ => destruct H as [? H]
             | H : _ /\ _ |- _ => destruct H as [H ?]
             end; subst; simpl; auto.
  - eapply Forall_impl;
      [apply Forall_and; split;
       [apply external_log_only_mappings
       |apply (external_downstream_known
                 (set_known_urns self0 (registry self0 all_tables)))]|].
    intros ev [(u & d & ->) Hd]. by left.
Qed.

(** ** What a classifier reads of a row *)

(** X24: a classifier reads only its own fields of a row: the SQL parser
    the DDL, session id and timestamp; the scan classifier the target, the
    source, the DDL and the timestamp; the view classifier the target and
    the DDL; the copy classifier the target and the filename.  Two rows that
    agree on them are classified alike, whatever their other fields hold. *)
Theorem classifier_reads_only_its_fields kind self r r' :
  fields_agree kind r r' ->
  classifier kind self r = classifier kind self r'.
Proof.
  destruct kind; simpl.
  - intros (Hts & Htt & Hss & Hst & Hd & Ht).
    unfold _process_stl_scan_lineage, _make_filtered_target.
    by rewrite Hts, Htt, Hss, Hst, Hd, Ht.
  - intros (Hd & Hs & Ht). unfold _process_sql_parser_lineage.
    by rewrite Hd, Hs, Ht.
  - intros (Hts & Htt & Hd). unfold _process_view_lineage, _make_filtered_target.
    by rewrite Hts, Htt, Hd.
  - intros (Hts & Htt & Hd). unfold _process_view_lineage, _make_filtered_target.
    by rewrite Hts, Htt, Hd.
  - intros (Hts & Htt & Hf). unfold _process_copy_command, _make_filtered_target.
    by rewrite Hts, Htt, Hf.
  - by intros ->.
Qed.

(** A copy row with stray source fields and DDL is classified as the copy
    scenario's row. *)
Lemma copy_reads_only_its_fields_scenario :
  _process_copy_command scenario_self
    (mkRow (Some "tmp") (Some "staging") (Some "public") (Some "orders")
       (Some "COPY orders FROM 's3://bucket/file.csv'")
       (Some "s3://bucket/file.csv") (Some 3%Z) (Some "session-2")) =
  _process_copy_command scenario_self copy_row.
Proof.
  apply (classifier_reads_only_its_fields COPY scenario_self
           (mkRow (Some "tmp") (Some "staging") (Some "public") (Some "orders")
              (Some "COPY orders FROM 's3://bucket/file.csv'")
              (Some "s3://bucket/file.csv") (Some 3%Z) (Some "session-2"))
           copy_row).
  repeat split.
Defined.

(** ** External tables: when the lookups matter *)

Lemma for_each_skip {A} (xs : list A) (body : A -> M unit) :
  (forall x, x ∈ xs -> body x = mret tt) -> for_each xs body = mret tt.
Proof.
  induction xs as [|x xs IH]; intros H; simpl; [done|].
  rewrite (H x) by left. rewrite ret_bind. apply IH.
  intros y Hy. apply H. by right.
Qed.

Lemma for_each_result_iff {A} (xs : list A) (body : A -> M unit) :
  result (for_each xs body) = inr tt <->
  forall x, x ∈ xs -> result (body x) = inr tt.
Proof.
  induction xs as [|x xs IH]; simpl.
  - split; [by intros _ x ?%elem_of_nil|done].
  - rewrite result_seq_inr, IH. split.
    + intros [Hx Hxs] y [->|Hy]%elem_of_cons; [done|by apply Hxs].
    + intros H. split; [apply H; left|]. intros y Hy. apply H. by right.
Qed.

Lemma for_each_result_inl {A} (xs : list A) (body : A -> M unit) e :
  result (for_each xs body) = inl e ->
  exists x, x ∈ xs /\ result (body x) = inl e.
Proof.
  induction xs as [|x xs IH]; simpl; [done|].
  rewrite bind_unfold. destruct (result (body x)) as [e'|[]] eqn:Hx; simpl.
  - intros [= ->]. exists x. split; [left|done].
  - intros (y & Hy & He)%IH. exists y. split; [by right|done].
Qed.

(** The lookups made for one external table, and nothing for another. *)
Lemma external_table_step_result self
    (db_schemas : gmap string (gmap string RedshiftSchema)) schema_name table :
  let step :=
    if is_external table then
      by_schema ← map_getitem db_schemas (database self);
      schema ← map_getitem by_schema schema_name;
      emit (external_table_edge self schema_name schema table)
    else mret tt in
  (result step = inr tt <->
     (is_external table = true ->
      exists by_schema, db_schemas !! database self = Some by_schema /\
                        is_Some (by_schema !! schema_name))) /\
  (forall e, result step = inl e -> exists key, e = KeyError key).
Proof.
  intros step. unfold step, map_getitem.
  destruct (is_external table); [|split; [done|by intros e [=]]].
  destruct (db_schemas !! database self) as [by_schema|].
  - rewrite ret_bind.
    destruct (by_schema !! schema_name) as [schema|] eqn:Hs.
    + rewrite ret_bind. split; [|by intros e [=]]. split; [|done].
      intros _ _. by eexists.
    + split; [|intros e [= <-]; by eexists].
      split; [done|]. intros H. destruct (H eq_refl) as (m & [= <-] & [? ?]).
      congruence.
  - split; [|intros e [= <-]; by eexists].
    split; [done|]. intros H. by destruct (H eq_refl) as (m & [=] & _).
Qed.

(** X20: over a snapshot that lists the run's database without any
    external table, external-table processing emits nothing and returns,
    and [db_schemas] is never read: it may miss the database altogether. *)
Theorem external_tables_none_is_silent self (all_tables : AllTables) db_schemas
    schemas :
  dict_get all_tables (database self) = Some schemas ->
  (forall schema_name tables table,
     (schema_name, tables) ∈ schemas -> table ∈ tables ->
     is_external table = false) ->
  _process_external_tables self all_tables db_schemas = mret tt.
Proof.
  intros Hdb Hnone. unfold _process_external_tables, getitem.
  rewrite Hdb, ret_bind.
  apply for_each_skip. intros [schema_name tables] Hs.
  apply for_each_skip. intros table Ht.
  by rewrite (Hnone schema_name tables table Hs Ht).
Qed.

(** Tables and views only, and no schema snapshot at all. *)
Lemma external_tables_none_scenario :
  _process_external_tables scenario_self local_tables ∅ = mret tt.
Proof.
  apply (external_tables_none_is_silent scenario_self local_tables ∅
           [("public", [mkTable "orders" (Some "TABLE");
                        mkTable "customers" (Some "VIEW")])]).
  - reflexivity.
  - intros schema_name tables table Hs Ht.
    apply list_elem_of_singleton in Hs. injection Hs as -> ->.
    apply elem_of_cons in Ht as [->|Ht]; [reflexivity|].
    apply list_elem_of_singleton in Ht as ->. reflexivity.
Defined.

(** X21: external-table processing returns normally exactly when the
    snapshot lists the run's database and, for every external table of it,
    [db_schemas] lists the run's database and the table's schema; in every
    other case it raises, and what it raises is a KeyError. *)
Theorem external_tables_return_iff_lookups_succeed self (all_tables : AllTables)
    db_schemas :
  (result (_process_external_tables self all_tables db_schemas) = inr tt <->
   exists schemas,
     dict_get all_tables (database self) = Some schemas /\
     forall schema_name tables table,
       (schema_name, tables) ∈ schemas -> table ∈ tables ->
       is_external table = true ->
       exists by_schema, db_schemas !! database self = Some by_schema /\
                         is_Some (by_schema !! schema_name)) /\
  (forall e, result (_process_external_tables self all_tables db_schemas) = inl e ->
     exists key, e = KeyError key).
Proof.
  unfold _process_external_tables, getitem.
  destruct (dict_get all_tables (database self)) as [schemas|].
  - rewrite ret_bind. split.
    + rewrite for_each_result_iff. split.
      * intros H. exists schemas. split; [done|].
        intros schema_name tables table Hs Ht.
        specialize (H (schema_name, tables) Hs). simpl in H.
        rewrite for_each_result_iff in H. specialize (H table Ht).
        by apply (external_table_step_result self db_schemas schema_name table).
      * intros (schemas' & [= <-] & H) [schema_name tables] Hs.
        apply for_each_result_iff. intros table Ht.
        apply (external_table_step_result self db_schemas schema_name table).
        by apply (H schema_name tables table).
    + intros e ([schema_name tables] & Hs & He)%for_each_result_inl.
      apply for_each_result_inl in He as (table & Ht & He).
      by apply (external_table_step_result self db_schemas schema_name table)
        in He.
  - split; [|intros e [= <-]; by eexists].
    split; [done|]. by intros (schemas & [=] & _).
Qed.

(** ** A larger registry keeps every fact *)

(** X22: enlarging the registry never loses lineage: whatever a classifier
    emits for a row under a registry, it emits for that row under every
    larger registry. *)
Theorem larger_registry_keeps_facts kind self (s s' : gset DatasetUrn) row ev :
  s ⊆ s' ->
  ev ∈ log (classifier kind (set_known_urns self s) row) ->
  ev ∈ log (classifier kind (set_known_urns self s') row).
Proof.
  intros Hsub.
  assert (Htarget : forall t,
            _make_filtered_target (set_known_urns self s) row = Some t ->
            _make_filtered_target (set_known_urns self s') row = Some t).
  { intros t [-> Hin]%make_filtered_target_Some.
    change (_make_filtered_target (set_known_urns self s') row =
            Some (dataset_urn (set_known_urns self s') (target_schema row)
                    (target_table row))).
    apply make_filtered_target_known. apply Hsub. exact Hin. }
  destruct kind; simpl.
  - unfold _process_stl_scan_lineage.
    destruct (_make_filtered_target (set_known_urns self s) row) as [t|] eqn:Ht;
      [|by intros ?%elem_of_nil].
    by rewrite (Htarget t eq_refl).
  - done.
  - unfold _process_view_lineage. destruct (ddl row); [|done].
    destruct (_make_filtered_target (set_known_urns self s) row) as [t|] eqn:Ht;
      [|by intros ?%elem_of_nil].
    by rewrite (Htarget t eq_refl).
  - unfold _process_view_lineage. destruct (ddl row); [|done].
    destruct (_make_filtered_target (set_known_urns self s) row) as [t|] eqn:Ht;
      [|by intros ?%elem_of_nil].
    by rewrite (Htarget t eq_refl).
  - unfold _process_copy_command. simpl.
    destruct (_get_sources _ _ _ _ _ _ _) as [e|[[|source0 sources] ?]];
      try done.
    simpl. destruct (negb _ || negb _); [done|].
    destruct (_make_filtered_target (set_known_urns self s) row) as [t|] eqn:Ht;
      [|by intros ?%elem_of_nil].
    by rewrite (Htarget t eq_refl).
  - unfold _process_unload_command. simpl.
    destruct (_get_target_lineage _ _ _ _) as [e|[entry|]]; try done.
    simpl. destruct (negb _ || negb _); [done|].
    case_decide as Hs; [by intros ?%elem_of_nil|].
    case_decide as Hs'; [|done].
    exfalso. apply Hs'. by apply Hsub.
Qed.

(** The scan edge of the scenario, under the registry that holds its target
    alone and under the scenario's registry. *)
Lemma larger_registry_scenario :
  Emit (add_known_query_lineage
          (mkInfo "INSERT INTO orders SELECT * FROM customers"
             (mkUrn "redshift" None "db.public.orders" "PROD")
             [mkUrn "redshift" None "db.public.customers" "PROD"]
             (Some 17%Z))
          true)
  ∈ log (_process_stl_scan_lineage scenario_self scan_row).
Proof.
  apply (larger_registry_keeps_facts QUERY_SCAN fresh_self
           {[ mkUrn "redshift" None "db.public.orders" "PROD" ]}
           (registry fresh_self scenario_tables) scan_row).
  - apply singleton_subseteq_l. vm_compute. reflexivity.
  - vm_compute. left.
Defined.
